(** * SageBot: a shallow embedding of the step engine and the screen locator

    The development follows the Python sources under [lib/]:
    - [lib/bot.py]     : [SageBot] (the orchestrator) and [BotContext];
    - [lib/gui.py]     : the input-injection steps ([Click], [MouseMove],
                         [DragTo], [Sleep], [ClickAt], [ClickOnReference]);
    - [lib/browser.py] : [BrowserStep.parse_selector], [NewPage], [GoToURL],
                         [Wait], the selector steps, the naming of a
                         download, [HandleDialog] and [StoreState].

    Python code is effectful: it prints, appends to files, sleeps, moves the
    pointer and may raise.  The embedding threads one machine state through
    every call (explicit state passing with an exception outcome), records
    the external effects in a trace, and takes what the program cannot decide
    itself (the clock, whether an append to a file succeeds, the random
    source, what the screen shows) from oracles held in that state.

    Python [float] values are modelled by exact rationals ([Q]); [round],
    [int], [//] and [/] are the Python operations on those.  How a float is
    printed by [str] is not computed here: it is one more oracle. *)

From Stdlib Require Import ZArith QArith Qround String Ascii List Lia.
From stdpp Require Import base option list gmap strings pretty.

Open Scope Z_scope.
Open Scope list_scope.

(** ** Python values and primitives *)

Module Py.

(** An exception object: its class and its message ([str(e)]).  Only
    subclasses of [Exception] are modelled. *)
Record exn := Exn { exn_class : string; exn_msg : string }.

Inductive outcome (A : Type) : Type :=
| Ok (a : A)
| Raise (e : exn).
Arguments Ok {A} a.
Arguments Raise {A} e.

Definition is_ok {A} (o : outcome A) : bool :=
  match o with Ok _ => true | Raise _ => false end.

(** [bool(s)] for an [Optional[str]]: [None] and the empty string are
    falsy. *)
Definition truthy (s : option string) : bool :=
  match s with
  | Some (String _ _) => true
  | _ => false
  end.

(** [round(x)] of a float: nearest integer, ties to the even one. *)
Definition round (q : Q) : Z :=
  let n := Qnum q in
  let d := Z.pos (Qden q) in
  let f := n / d in
  match (2 * (n mod d)) ?= d with
  | Lt => f
  | Gt => f + 1
  | Eq => if Z.even f then f else f + 1
  end.

(** [int(x)] of a float: truncation toward zero. *)
Definition int (q : Q) : Z := Z.quot (Qnum q) (Z.pos (Qden q)).

(** [a // b] on integers (floor division; callers divide by 2). *)
Definition floordiv (a b : Z) : Z := a / b.

(** [a / b] on integers with a positive divisor: true division. *)
Definition truediv (a : Z) (b : positive) : Q := inject_Z a / inject_Z (Z.pos b).

(** [max(a, b)] and [random.randint(a, b)]: the latter draws from the
    entropy [raw] a value of [a..b]; Python raises [ValueError] on an
    empty range. *)
Definition randint (raw a b : Z) : outcome Z :=
  if b <? a then Raise (Exn "ValueError" "empty range for randrange()")
  else Ok (a + raw mod (b - a + 1)).

(** [lst[i]]: a negative index counts from the end, an index outside
    [-len..len-1] raises [IndexError]. *)
Definition index {A} (l : list A) (i : Z) : outcome A :=
  let len := Z.of_nat (length l) in
  let j := if i <? 0 then len + i else i in
  if (j <? 0) || (len <=? j) then Raise (Exn "IndexError" "list index out of range")
  else match l !! Z.to_nat j with
       | Some x => Ok x
       | None => Raise (Exn "IndexError" "list index out of range")
       end.

(** *** Formatting *)

Definition digit (d : Z) : string :=
  String (ascii_of_nat (48 + Z.to_nat (d mod 10))) EmptyString.

(** The last [n] decimal digits of [z], zero padded. *)
Fixpoint digits (n : nat) (z : Z) : string :=
  match n with
  | O => EmptyString
  | S k => digits k (z / 10) +:+ digit z
  end.

Definition str_int (z : Z) : string := pretty z.

(** [f"{x:.Nf}"]. *)
Definition format_fixed (prec : nat) (q : Q) : string :=
  let scale := 10 ^ Z.of_nat prec in
  let r := Z.abs (round (q * inject_Z scale)) in
  let sign := if Qnum q <? 0 then "-"%string else EmptyString in
  let frac := match prec with
              | O => EmptyString
              | _ => "." +:+ digits prec (r mod scale)
              end in
  sign +:+ str_int (r / scale) +:+ frac.

(** Values that the steps of [browser.py] store in attributes. *)
Inductive callable := dialog_accept | dialog_dismiss.

Inductive value :=
| VBool (b : bool)
| VInt (z : Z)
| VFunc (f : callable).

Definition is_callable (v : value) : bool :=
  match v with VFunc _ => true | _ => false end.

(** [bool(v)]. *)
Definition value_truthy (v : value) : bool :=
  match v with
  | VBool b => b
  | VInt z => negb (z =? 0)
  | VFunc _ => true
  end.

(** Attribute lookup [obj.name]: the instance dictionary first, then the
    class (functions and static methods are non-data descriptors). *)
Definition getattr (instance class : gmap string value) (name : string)
  : outcome value :=
  match instance !! name with
  | Some v => Ok v
  | None => match class !! name with
            | Some v => Ok v
            | None => Raise (Exn "AttributeError" name)
            end
  end.

End Py.
Export Py(exn, Exn, exn_class, exn_msg, outcome, Ok, Raise).


(** ** The machine: oracles, external effects, and the bot context *)

Definition handle := nat.

(** What [datetime.now()] returns. *)
Record datetime := DateTime {
  year : Z; month : Z; day : Z; hour : Z; minute : Z; second : Z
}.

(** What the matcher returns for one reference image: the size of the
    screen capture and the peak of the correlation surface
    ([cv2.minMaxLoc]). *)
Record sighting := Sighting {
  screenshot_width : positive;
  screenshot_height : positive;
  max_val : Q;
  max_loc : Z * Z
}.

(** The environment a run meets.  Every field is an input of the model:
    nothing below chooses its values. *)
Record oracle := Oracle {
  now : nat -> datetime;              (* the clock, per reading *)
  append_fails : nat -> option exn;   (* does this write to a file fail? *)
  entropy : nat -> Z;                 (* the random source *)
  screen_size : positive * positive;  (* pyautogui.size() *)
  imread : string -> option (positive * positive);
                                      (* cv2.imread: the template's width
                                         and height, None when the file is
                                         missing or unreadable *)
  matching : string -> outcome sighting;
                                      (* capture and correlation, or the
                                         error one of those calls raises *)
  pointer : option exn;               (* does moving or clicking fail? *)
  dom : string -> option exn;         (* does acting on a selector fail? *)
  float_str : Q -> string             (* str(x) of a float, as the interpreter
                                         prints it: the shortest text that
                                         reads back as x, in positional or in
                                         exponent notation *)
}.

(** External effects, in the order they happen. *)
Inductive event :=
| Print (line : string)
| Write (path line : string)
| Makedirs (path : string)
| TimeSleep (seconds : Q)
| MoveTo (x y : Z) (duration : Q)
| DragToPoint (x y : Z) (duration : Q)
| ClickButton (button : string) (clicks : Z) (interval : Q)
| PlaywrightStart (p : handle)
| Launch (p b : handle) (headless : bool)
| NewContext (b c : handle) (storage_state : option string)
| BrowserClose (b : handle)
| PlaywrightStop (p : handle)
| PageOn (page : handle) (name : string) (handler : Py.value)
| PageWait (page : handle) (ms : Z)
| PageFill (page : handle) (selector value : string)
| PagePress (page : handle) (selector key : string)
| LocatorClick (page : handle) (selector : string).

(** The fields [BotContext.__init__] sets. *)
Record bot_context := Context {
  playwright : option handle;
  browser : option handle;
  context : option handle;
  page : option handle;
  current_element : option handle;
  data : gmap string Py.value;
  pages : list handle;
  run_name : string;
  run_folder : string
}.

Record machine := Machine {
  bot : bot_context;                 (* the one shared context object *)
  env : oracle;
  tick : nat;                         (* oracle readings so far *)
  fresh : handle;                     (* next unused handle *)
  disk : gmap string (list string);   (* files, as lists of lines *)
  trace : list event
}.

Definition with_bot (c : bot_context) (m : machine) : machine :=
  Machine c (env m) (tick m) (fresh m) (disk m) (trace m).
Definition with_tick (n : nat) (m : machine) : machine :=
  Machine (bot m) (env m) n (fresh m) (disk m) (trace m).
Definition with_fresh (h : handle) (m : machine) : machine :=
  Machine (bot m) (env m) (tick m) h (disk m) (trace m).
Definition with_disk (d : gmap string (list string)) (m : machine) : machine :=
  Machine (bot m) (env m) (tick m) (fresh m) d (trace m).
Definition emit (e : event) (m : machine) : machine :=
  Machine (bot m) (env m) (tick m) (fresh m) (disk m) (trace m ++ [e]).

(** Computations: a state transformer over the machine that returns a value
    or raises. *)
Definition M (A : Type) : Type := machine -> outcome A * machine.

Definition ret {A} (a : A) : M A := fun m => (Ok a, m).
Definition raise {A} (e : exn) : M A := fun m => (Raise e, m).
Definition bind {A B} (c : M A) (k : A -> M B) : M B :=
  fun m => match c m with
           | (Ok a, m') => k a m'
           | (Raise e, m') => (Raise e, m')
           end.

(** [try: body / except Exception as e: handler e]. *)
Definition try_except {A} (body : M A) (handler : exn -> M A) : M A :=
  fun m => match body m with
           | (Ok a, m') => (Ok a, m')
           | (Raise e, m') => handler e m'
           end.

Definition lift {A} (o : outcome A) : M A := fun m => (o, m).
Definition get_machine : M machine := fun m => (Ok m, m).
Definition modify (f : machine -> machine) : M unit := fun m => (Ok tt, f m).
Definition when (b : bool) (c : M unit) : M unit := if b then c else ret tt.

Declare Scope py_scope.
Delimit Scope py_scope with py.
Notation "x <- c ;; k" := (bind c (fun x => k))
  (at level 100, c at next level, right associativity) : py_scope.
Notation "c ;; k" := (bind c (fun _ => k))
  (at level 100, right associativity) : py_scope.
Open Scope py_scope.

(** Reading an oracle advances the tick. *)
Definition next_tick : M nat :=
  fun m => (Ok (tick m), with_tick (S (tick m)) m).
Definition new_handle : M handle :=
  fun m => (Ok (fresh m), with_fresh (S (fresh m)) m).
Definition do (e : event) : M unit := modify (emit e).

Definition print (line : string) : M unit := do (Print line).

(** [time.sleep(seconds)]. *)
Definition sleep (seconds : Q) : M unit :=
  if Qnum seconds <? 0
  then raise (Exn "ValueError" "sleep length must be non-negative")
  else do (TimeSleep seconds).

(** [with open(path, "a") as f: f.write(line + "\n")]: the environment
    decides whether the write goes through. *)
Definition append_line (path line : string) : M unit :=
  n <- next_tick ;;
  m <- get_machine ;;
  match append_fails (env m) n with
  | Some e => raise e
  | None =>
      modify (with_disk (<[path := default [] (disk m !! path) ++ [line]]> (disk m))) ;;
      do (Write path line)
  end.

(** [f"{x}"] for a float [x]: the text is the environment's. *)
Definition str_float (x : Q) : M string :=
  m <- get_machine ;; ret (float_str (env m) x).

(** ** lib/bot.py *)

(** [strftime("%Y%m%d%H%M%S")] and [strftime("%Y-%m-%d %H:%M:%S")]. *)
Definition strftime_compact (d : datetime) : string :=
  Py.digits 4 (year d) +:+ Py.digits 2 (month d) +:+ Py.digits 2 (day d) +:+
  Py.digits 2 (hour d) +:+ Py.digits 2 (minute d) +:+ Py.digits 2 (second d).

Definition strftime_readable (d : datetime) : string :=
  Py.digits 4 (year d) +:+ "-" +:+ Py.digits 2 (month d) +:+ "-" +:+
  Py.digits 2 (day d) +:+ " " +:+ Py.digits 2 (hour d) +:+ ":" +:+
  Py.digits 2 (minute d) +:+ ":" +:+ Py.digits 2 (second d).

Definition datetime_now : M datetime :=
  n <- next_tick ;; m <- get_machine ;; ret (now (env m) n).

Module BotContext.

Abbreviation t := bot_context.

Definition set_playwright (p : handle) (self : t) : t :=
  Context (Some p) (browser self) (context self) (page self)
       (current_element self) (data self) (pages self)
       (run_name self) (run_folder self).

Definition set_browser (b : handle) (self : t) : t :=
  Context (playwright self) (Some b) (context self) (page self)
       (current_element self) (data self) (pages self)
       (run_name self) (run_folder self).

Definition set_context (c : handle) (self : t) : t :=
  Context (playwright self) (browser self) (Some c) (page self)
       (current_element self) (data self) (pages self)
       (run_name self) (run_folder self).

(** [self.page = page; if page not in self.pages: self.pages.append(page)] *)
Definition set_page (p : handle) (self : t) : t :=
  Context (playwright self) (browser self) (context self) (Some p)
       (current_element self) (data self)
       (if bool_decide (p ∈ pages self) then pages self else pages self ++ [p])
       (run_name self) (run_folder self).

Definition set_current_element (e : handle) (self : t) : t :=
  Context (playwright self) (browser self) (context self) (page self)
       (Some e) (data self) (pages self)
       (run_name self) (run_folder self).

(** [return self.pages[index] if self.pages else self.page] *)
Definition get_page (index : Z) (self : t) : outcome (option handle) :=
  match pages self with
  | [] => Ok (page self)
  | _ :: _ => match Py.index (pages self) index with
              | Ok p => Ok (Some p)
              | Raise e => Raise e
              end
  end.

Definition store_data (key : string) (v : Py.value) (self : t) : t :=
  Context (playwright self) (browser self) (context self) (page self)
       (current_element self) (<[key := v]> (data self)) (pages self)
       (run_name self) (run_folder self).

Definition get_run_folder (self : t) : string := run_folder self.

Definition get_data (key : string) (self : t) : option Py.value :=
  data self !! key.

Definition generate_timestamp : M string :=
  d <- datetime_now ;; ret (strftime_compact d).

Definition get_current_datetime : M string :=
  d <- datetime_now ;; ret (strftime_readable d).

Definition create_run_folder (run_folder : string) : M unit :=
  do (Makedirs run_folder).

(** [f"[{outcome}] {BotContext.get_current_datetime()} - {action}"] and
    [f"{context.get_run_folder()}/actions.log"]. *)
Definition log_line (tag stamp action : string) : string :=
  "[" +:+ tag +:+ "] " +:+ stamp +:+ " - " +:+ action.

Definition log_file (self : t) : string :=
  get_run_folder self +:+ "/actions.log".

(** [log_action(context, action, outcome)]: the line goes to the console,
    then to [actions.log] of the context's run folder.  The context is the
    one of the machine. *)
Definition log_action (action tag : string) : M unit :=
  stamp <- get_current_datetime ;;
  let data := log_line tag stamp action in
  print data ;;
  m <- get_machine ;;
  append_line (log_file (bot m)) data.

(** [BotContext()]. *)
Definition init : M unit :=
  name <- generate_timestamp ;;
  let folder := "./runs/" +:+ name in
  modify (with_bot (Context None None None None None ∅ [] name folder)) ;;
  create_run_folder folder.

End BotContext.

(** A step: its class name and its [execute], which works on the shared
    context of the machine and hands it back. *)
Module Step.
Record t := Make { class_name : string; execute : M unit }.
End Step.

Module SageBot.

Record t := Make {
  functions : list Step.t;
  headless : bool;
  state_name : option string
}.

Definition init (args : list Step.t) (headless : bool)
    (state_name : option string) : M t :=
  BotContext.init ;;
  BotContext.log_action "Booting up SageBot" "🤖" ;;
  ret (Make args headless state_name).

(** [browser.new_context(storage_state=path)] reads the state file. *)
Definition new_context (b : handle) (storage_state : option string) : M handle :=
  m <- get_machine ;;
  match storage_state with
  | Some path =>
      match disk m !! path with
      | Some _ => c <- new_handle ;; do (NewContext b c storage_state) ;; ret c
      | None => raise (Exn "FileNotFoundError"
                           ("[Errno 2] No such file or directory: '" +:+ path +:+ "'"))
      end
  | None => c <- new_handle ;; do (NewContext b c None) ;; ret c
  end.

(** [self.context.browser.close()] and [self.context.playwright.stop()]. *)
Definition browser_close : M unit :=
  m <- get_machine ;;
  match browser (bot m) with
  | Some b => do (BrowserClose b)
  | None => raise (Exn "AttributeError" "'NoneType' object has no attribute 'close'")
  end.

Definition playwright_stop : M unit :=
  m <- get_machine ;;
  match playwright (bot m) with
  | Some p => do (PlaywrightStop p)
  | None => raise (Exn "AttributeError" "'NoneType' object has no attribute 'stop'")
  end.

(** The loop of [execute]: [try] the step, on an exception log it and
    [break]. *)
Fixpoint run (functions : list Step.t) : M unit :=
  match functions with
  | [] => ret tt
  | function :: rest =>
      go_on <- try_except
                 (Step.execute function ;; ret true)
                 (fun e =>
                    BotContext.log_action ("Error executing " +:+ Step.class_name function
                                +:+ ": " +:+ exn_msg e) "❌" ;;
                    ret false) ;;
      if go_on : bool then run rest else ret tt
  end.

(** [execute] up to the loop: start the driver, launch the browser, make
    the browser context and store the three in the bot context. *)
Definition startup (self : t) : M unit :=
  BotContext.log_action "SageBot execution started." "🤖" ;;
  playwright <- new_handle ;;
  do (PlaywrightStart playwright) ;;
  browser <- new_handle ;;
  do (Launch playwright browser (headless self)) ;;
  context <-
    (if Py.truthy (state_name self) then
       let name := default EmptyString (state_name self) in
       c <- new_context browser (Some ("./states/" +:+ name +:+ ".json")) ;;
       BotContext.log_action ("Loaded state " +:+ name) "💾" ;;
       ret c
     else
       c <- new_context browser None ;;
       BotContext.log_action "No state name provided, creating new context" "💾" ;;
       ret c) ;;
  modify (fun m => with_bot (BotContext.set_playwright playwright (bot m)) m) ;;
  modify (fun m => with_bot (BotContext.set_browser browser (bot m)) m) ;;
  modify (fun m => with_bot (BotContext.set_context context (bot m)) m).

(** [execute] after the loop. *)
Definition teardown : M unit :=
  browser_close ;;
  playwright_stop ;;
  BotContext.log_action "Bot execution completed" "🏁".

Definition execute (self : t) : M unit :=
  startup self ;;
  run (functions self) ;;
  teardown.

End SageBot.

(** ** lib/gui.py *)

Module GUIStep.

(** [pyautogui.size()]. *)
Definition get_screen_size : M (Z * Z) :=
  m <- get_machine ;;
  ret (Z.pos (fst (screen_size (env m))), Z.pos (snd (screen_size (env m)))).

(** [pyautogui.moveTo], [dragTo] and [click]. *)
Definition moveTo (x y : Z) (duration : Q) : M unit :=
  m <- get_machine ;;
  match pointer (env m) with
  | Some e => raise e
  | None => do (MoveTo x y duration)
  end.

Definition dragTo (x y : Z) (duration : Q) : M unit :=
  m <- get_machine ;;
  match pointer (env m) with
  | Some e => raise e
  | None => do (DragToPoint x y duration)
  end.

Definition click (button : string) (clicks : Z) (interval : Q) : M unit :=
  m <- get_machine ;;
  match pointer (env m) with
  | Some e => raise e
  | None => do (ClickButton button clicks interval)
  end.

(** [ms / 1000] for an integer number of milliseconds. *)
Definition seconds (ms : Z) : Q := inject_Z ms / inject_Z 1000.

(** [x > 0] on floats. *)
Definition positive_float (q : Q) : bool := 0 <? Qnum q.

End GUIStep.

Module MouseMove.

Record t := Make { x_ratio : Q; y_ratio : Q; duration : Q; wait : Q }.

Definition init (x_ratio y_ratio : Q) (duration wait : Z) : t :=
  Make x_ratio y_ratio (GUIStep.seconds duration) (GUIStep.seconds wait).

Definition execute (self : t) : M unit :=
  size <- GUIStep.get_screen_size ;;
  let w := fst size in
  let h := snd size in
  let x := Py.round (x_ratio self * inject_Z w) in
  let y := Py.round (y_ratio self * inject_Z h) in
  GUIStep.moveTo x y (duration self) ;;
  ms <- str_float (duration self * inject_Z 1000) ;;
  BotContext.log_action
    ("Moved mouse to " +:+ Py.str_int x +:+ ", " +:+ Py.str_int y +:+ " with "
     +:+ ms +:+ "ms duration") "👆" ;;
  when (GUIStep.positive_float (wait self))
    (sleep (wait self) ;;
     ms <- str_float (wait self * inject_Z 1000) ;;
     BotContext.log_action ("Waited " +:+ ms +:+ "ms") "⏳").

Definition step (self : t) : Step.t := Step.Make "MouseMove" (execute self).

End MouseMove.

Module DragTo.

Record t := Make { x_ratio : Q; y_ratio : Q; duration : Q; wait : Q }.

Definition init (x_ratio y_ratio : Q) (duration wait : Z) : t :=
  Make x_ratio y_ratio (GUIStep.seconds duration) (GUIStep.seconds wait).

Definition execute (self : t) : M unit :=
  size <- GUIStep.get_screen_size ;;
  let w := fst size in
  let h := snd size in
  let x := Py.round (x_ratio self * inject_Z w) in
  let y := Py.round (y_ratio self * inject_Z h) in
  GUIStep.dragTo x y (duration self) ;;
  ms <- str_float (duration self * inject_Z 1000) ;;
  BotContext.log_action
    ("Dragged to " +:+ Py.str_int x +:+ ", " +:+ Py.str_int y +:+ " with "
     +:+ ms +:+ "ms duration") "👆" ;;
  when (GUIStep.positive_float (wait self))
    (sleep (wait self) ;;
     ms <- str_float (wait self * inject_Z 1000) ;;
     BotContext.log_action ("Waited " +:+ ms +:+ "ms") "⏳").

Definition step (self : t) : Step.t := Step.Make "DragTo" (execute self).

End DragTo.

Module Sleep.

Record t := Make { duration : Q; randomize : bool; wait : Q }.

Definition init (duration : Z) (randomize : bool) (wait : Z) : t :=
  Make (GUIStep.seconds duration) randomize (GUIStep.seconds wait).

(** [max(int(self.duration - 1), 1)] and
    [max(int(self.duration + 1), min_duration)]. *)
Definition min_duration (self : t) : Z :=
  Z.max (Py.int (duration self - 1)) 1.

Definition max_duration (self : t) : Z :=
  Z.max (Py.int (duration self + 1)) (min_duration self).

Definition randint (a b : Z) : M Z :=
  n <- next_tick ;;
  m <- get_machine ;;
  lift (Py.randint (entropy (env m) n) a b).

Definition execute (self : t) : M unit :=
  actual_duration <-
    (if randomize self then
       if negb (min_duration self =? max_duration self) then
         r <- randint (min_duration self) (max_duration self) ;;
         ret (inject_Z r / inject_Z 1000)%Q
       else ret (duration self)
     else ret (duration self)) ;;
  sleep actual_duration ;;
  BotContext.log_action
    ("Slept for " +:+ Py.format_fixed 0 (actual_duration * inject_Z 1000) +:+ "ms") "⏳" ;;
  when (GUIStep.positive_float (wait self))
    (sleep (wait self) ;;
     ms <- str_float (wait self * inject_Z 1000) ;;
     BotContext.log_action ("Waited " +:+ ms +:+ "ms") "⏳").

Definition step (self : t) : Step.t := Step.Make "Sleep" (execute self).

End Sleep.

Module ClickOnReference.

Record t := Make {
  reference_path : string;
  type : string;
  clicks : Z;
  delay : Q;
  duration : Q;
  wait : Q;
  threshold : Q
}.

Definition init (reference_file type : string) (clicks delay duration wait : Z)
    (threshold : Q) : t :=
  Make ("./references/" +:+ reference_file +:+ ".png") type clicks
       (GUIStep.seconds delay) (GUIStep.seconds duration)
       (GUIStep.seconds wait) threshold.

(** Lines 385-393: the centre of the match, its ratios against the
    capture, and the pixel recomputed from the ratios. *)
Definition center (top_left : Z * Z) (template_width template_height : positive)
  : Z * Z :=
  (fst top_left + Py.floordiv (Z.pos template_width) 2,
   snd top_left + Py.floordiv (Z.pos template_height) 2).

Definition ratios (center : Z * Z) (screenshot_width screenshot_height : positive)
  : Q * Q :=
  (Py.truediv (fst center) screenshot_width,
   Py.truediv (snd center) screenshot_height).

Definition pixel (ratio : Q * Q) (screenshot_width screenshot_height : positive)
  : Z * Z :=
  (Py.round (fst ratio * inject_Z (Z.pos screenshot_width)),
   Py.round (snd ratio * inject_Z (Z.pos screenshot_height))).

Definition wait_ms (self : t) : string :=
  Py.format_fixed 0 (wait self * inject_Z 1000).

(** The body of the [try]: [true] when it ends in [return context],
    [false] when control falls through to the fallback. *)
Definition attempt (self : t) : M bool :=
  m <- get_machine ;;
  match imread (env m) (reference_path self) with
  | None =>
      let error_msg := "Image not found: " +:+ reference_path self in
      print error_msg ;;
      BotContext.log_action error_msg "❌" ;;
      when (GUIStep.positive_float (wait self))
        (sleep (wait self) ;;
         BotContext.log_action ("Waited " +:+ wait_ms self +:+ "ms after error") "⏳") ;;
      ret true
  | Some (template_width, template_height) =>
      BotContext.log_action
        ("📏 Template size: " +:+ Py.str_int (Z.pos template_width) +:+ "x"
         +:+ Py.str_int (Z.pos template_height)) "📏" ;;
      s <- lift (matching (env m) (reference_path self)) ;;
      needed <- str_float (threshold self) ;;
      BotContext.log_action
        ("🎯 Match confidence: " +:+ Py.format_fixed 4 (max_val s)
         +:+ " (threshold: " +:+ needed +:+ ")") "🎯" ;;
      if Qle_bool (threshold self) (max_val s) then
        let c := center (max_loc s) template_width template_height in
        let r := ratios c (screenshot_width s) (screenshot_height s) in
        let xy := pixel r (screenshot_width s) (screenshot_height s) in
        let at_xy := "(" +:+ Py.str_int (fst xy) +:+ ", " +:+ Py.str_int (snd xy) +:+ ")" in
        BotContext.log_action
          ("🎯 Reference found! Moving to coordinates: " +:+ at_xy) "🎯" ;;
        GUIStep.moveTo (fst xy) (snd xy) (duration self) ;;
        GUIStep.click (type self) (clicks self) (delay self) ;;
        BotContext.log_action
          ("✅ Successfully clicked at coordinates: " +:+ at_xy) "👆" ;;
        when (GUIStep.positive_float (wait self))
          (BotContext.log_action
             ("⏳ Starting wait of " +:+ wait_ms self +:+ "ms after successful click") "⏳" ;;
           sleep (wait self) ;;
           BotContext.log_action ("✅ Completed wait of " +:+ wait_ms self +:+ "ms") "⏳") ;;
        ret true
      else
        needed <- str_float (threshold self) ;;
        let error_msg :=
          "❌ No reference match found (confidence: " +:+ Py.format_fixed 4 (max_val s)
          +:+ ", needed: " +:+ needed +:+ ")" in
        print error_msg ;;
        BotContext.log_action error_msg "❌" ;;
        ret false
  end.

Definition execute (self : t) : M unit :=
  BotContext.log_action
    ("🔍 Searching for reference image: " +:+ reference_path self) "🔍" ;;
  returned <- try_except (attempt self)
                (fun e =>
                   let error_msg := "❌ Error in ClickOnReference: " +:+ exn_msg e in
                   print error_msg ;;
                   BotContext.log_action error_msg "❌" ;;
                   ret false) ;;
  if returned : bool then ret tt
  else
    BotContext.log_action "❌ ClickOnReference failed - executing fallback wait" "❌" ;;
    when (GUIStep.positive_float (wait self))
      (BotContext.log_action
         ("⏳ Starting fallback wait of " +:+ wait_ms self +:+ "ms") "⏳" ;;
       sleep (wait self) ;;
       BotContext.log_action
         ("✅ Completed fallback wait of " +:+ wait_ms self +:+ "ms") "⏳").

Definition step (self : t) : Step.t := Step.Make "ClickOnReference" (execute self).

End ClickOnReference.

(** ** lib/browser.py *)

Module BrowserStep.

Definition parse_selector (x_path css : option string) : outcome string :=
  if Py.truthy x_path then Ok ("xpath=" +:+ default EmptyString x_path)
  else if Py.truthy css then Ok ("css=" +:+ default EmptyString css)
  else Raise (Exn "ValueError" "No selector provided").

(** [context.page]: the attribute of a page that was never set is [None]. *)
Definition current_page (attr : string) : M handle :=
  m <- get_machine ;;
  match page (bot m) with
  | Some p => ret p
  | None => raise (Exn "AttributeError"
                       ("'NoneType' object has no attribute '" +:+ attr +:+ "'"))
  end.

Definition wait_for_timeout (ms : Z) : M unit :=
  p <- current_page "wait_for_timeout" ;; do (PageWait p ms).

(** Acting on a selector: the page decides whether it resolves. *)
Definition acting (selector : string) (e : event) : M unit :=
  m <- get_machine ;;
  match dom (env m) selector with
  | Some err => raise err
  | None => do e
  end.

Definition trailing_wait (wait : Z) : M unit :=
  when (0 <? wait)
    (wait_for_timeout wait ;;
     BotContext.log_action ("Waited " +:+ Py.str_int wait +:+ "ms") "⏳").

End BrowserStep.

Module ClickElement.

Record t := Make { selector : string; wait : Z }.

Definition init (x_path css : option string) (wait : Z) : outcome t :=
  match BrowserStep.parse_selector x_path css with
  | Ok selector => Ok (Make selector wait)
  | Raise e => Raise e
  end.

Definition execute (self : t) : M unit :=
  p <- BrowserStep.current_page "locator" ;;
  element <- new_handle ;;                       (* page.locator(selector) *)
  (if true (* a Locator object is truthy *) then
     modify (fun m => with_bot (BotContext.set_current_element element (bot m)) m) ;;
     BrowserStep.acting (selector self) (LocatorClick p (selector self)) ;;
     BotContext.log_action ("Clicked element " +:+ selector self) "👆"
   else
     BotContext.log_action ("Element " +:+ selector self +:+ " not found") "❌") ;;
  BrowserStep.trailing_wait (wait self).

Definition step (self : t) : Step.t := Step.Make "ClickElement" (execute self).

End ClickElement.

Module FillInput.

Record t := Make { selector : string; value : option string; wait : Z }.

Definition init (x_path css value : option string) (wait : Z) : outcome t :=
  match BrowserStep.parse_selector x_path css with
  | Ok selector => Ok (Make selector value wait)
  | Raise e => Raise e
  end.

Definition shown (v : option string) : string := default "None"%string v.

Definition execute (self : t) : M unit :=
  p <- BrowserStep.current_page "fill" ;;
  BrowserStep.acting (selector self) (PageFill p (selector self) (shown (value self))) ;;
  BotContext.log_action
    ("Filled input " +:+ selector self +:+ " with " +:+ shown (value self)) "📝" ;;
  BrowserStep.trailing_wait (wait self).

Definition step (self : t) : Step.t := Step.Make "FillInput" (execute self).

End FillInput.

Module FillAndSubmit.

Record t := Make { selector : string; value : option string; wait : Z }.

Definition init (x_path css value : option string) (wait : Z) : outcome t :=
  match BrowserStep.parse_selector x_path css with
  | Ok selector => Ok (Make selector value wait)
  | Raise e => Raise e
  end.

Definition execute (self : t) : M unit :=
  p <- BrowserStep.current_page "fill" ;;
  BrowserStep.acting (selector self)
    (PageFill p (selector self) (FillInput.shown (value self))) ;;
  BrowserStep.acting (selector self) (PagePress p (selector self) "Enter") ;;
  BrowserStep.trailing_wait (wait self) ;;
  BotContext.log_action
    ("Filled and submitted " +:+ selector self +:+ " with "
     +:+ FillInput.shown (value self)) "📝".

Definition step (self : t) : Step.t := Step.Make "FillAndSubmit" (execute self).

End FillAndSubmit.

(** [ClickAndDownload.__init__].  Of its [execute], the naming of the
    download is modelled further down ([DownloadName]). *)
Module ClickAndDownload.

Record t := Make {
  selector : string;
  download_path : string;
  download_name : option string;
  wait : Z
}.

Definition init (x_path css : option string) (wait : Z) (download_path : string)
    (download_name : option string) : outcome t :=
  match BrowserStep.parse_selector x_path css with
  | Ok selector => Ok (Make selector download_path download_name wait)
  | Raise e => Raise e
  end.

End ClickAndDownload.

Module HandleDialog.

Import Py.

(** The class namespace: the two static methods. *)
Definition class_dict : gmap string value :=
  <["accept" := VFunc dialog_accept]> (<["dismiss" := VFunc dialog_dismiss]> ∅).

(** An instance is its attribute dictionary. *)
Record t := Make { instance_dict : gmap string value }.

(** [self.accept = accept; self.wait = wait]. *)
Definition init (accept : bool) (wait : Z) : t :=
  Make (<["wait" := VInt wait]> (<["accept" := VBool accept]> ∅)).

Definition attr (self : t) (name : string) : M value :=
  lift (getattr (instance_dict self) class_dict name).

(** [context.page.on(name, handler)]. *)
Definition page_on (name : string) (handler : value) : M unit :=
  p <- BrowserStep.current_page "on" ;; do (PageOn p name handler).

Definition execute (self : t) : M unit :=
  a <- attr self "accept" ;;
  (if value_truthy a then
     h <- attr self "accept" ;;
     page_on "dialog" h ;;
     BotContext.log_action "Set up dialog handler to accept dialogs" "✅"
   else
     h <- attr self "dismiss" ;;
     page_on "dialog" h ;;
     BotContext.log_action "Set up dialog handler to dismiss dialogs" "❌") ;;
  w <- attr self "wait" ;;
  match w with
  | VInt wait => BrowserStep.trailing_wait wait
  | VBool b => BrowserStep.trailing_wait (Z.b2z b)
  | VFunc _ => raise (Exn "TypeError" "'>' not supported between instances of 'function' and 'int'")
  end.

Definition step (self : t) : Step.t := Step.Make "HandleDialog" (execute self).

(** What the page does with a registered handler when a dialog opens: it
    calls it with the dialog. *)
Inductive dialog_state := Accepted | Dismissed.

Definition call_handler (handler : value) : outcome dialog_state :=
  match handler with
  | VFunc dialog_accept => Ok Accepted
  | VFunc dialog_dismiss => Ok Dismissed
  | VBool _ => Raise (Exn "TypeError" "'bool' object is not callable")
  | VInt _ => Raise (Exn "TypeError" "'int' object is not callable")
  end.

(** The handlers registered for dialogs on page [p], oldest first. *)
Definition dialog_handlers (p : handle) (tr : list event) : list value :=
  omap (fun e => match e with
                 | PageOn q name h =>
                     if bool_decide (q = p) && String.eqb name "dialog"
                     then Some h else None
                 | _ => None
                 end) tr.

End HandleDialog.

(** ** Notions the statements use *)

(** Every write to a file goes through. *)
Definition writable (o : oracle) : Prop := forall n, append_fails o n = None.

(** The machine after a [log_action] whose write went through. *)
Definition after_log (action tag : string) (m : machine) : machine :=
  let line := BotContext.log_line tag (strftime_readable (now (env m) (tick m))) action in
  let file := BotContext.log_file (bot m) in
  Machine (bot m) (env m) (S (S (tick m))) (fresh m)
          (<[file := default [] (disk m !! file) ++ [line]]> (disk m))
          (trace m ++ [Print line; Write file line]).

(** The machine after a [log_action] whose write failed: the line is on the
    console only. *)
Definition after_failed_log (action tag : string) (m : machine) : machine :=
  let line := BotContext.log_line tag (strftime_readable (now (env m) (tick m))) action in
  Machine (bot m) (env m) (S (S (tick m))) (fresh m) (disk m)
          (trace m ++ [Print line]).

(** The line "[tag] time - action", with a reading of the clock for the
    time, was written to [actions.log] of the run folder. *)
Definition logged (tag action : string) (m : machine) : Prop :=
  exists n,
    Write (run_folder (bot m) +:+ "/actions.log")
      ("[" +:+ tag +:+ "] " +:+ strftime_readable (now (env m) n) +:+ " - " +:+ action)
      ∈ trace m.

(** The steps of a list are executed one after the other and all return. *)
Inductive all_return : list Step.t -> machine -> machine -> Prop :=
| all_return_nil m : all_return [] m m
| all_return_cons f fs m m1 m2 :
    Step.execute f m = (Ok tt, m1) ->
    all_return fs m1 m2 ->
    all_return (f :: fs) m m2.

(** The releases of browser and driver that a trace holds, in order. *)
Definition is_release (e : event) : bool :=
  match e with
  | BrowserClose _ | PlaywrightStop _ => true
  | _ => false
  end.

Definition releases (tr : list event) : list event := List.filter is_release tr.

(** A computation that only adds to the trace, releases nothing, and leaves
    the bot context and the oracles alone. *)
Definition framed {A} (c : M A) : Prop :=
  forall m,
    let m' := snd (c m) in
    env m' = env m /\ bot m' = bot m
    /\ exists evs, trace m' = trace m ++ evs /\ releases evs = [].

(** A computation that leaves the handles of browser and driver in the
    context and releases neither; a step that does so. *)
Definition quiet {A} (c : M A) : Prop :=
  forall m,
    let m' := snd (c m) in
    browser (bot m') = browser (bot m)
    /\ playwright (bot m') = playwright (bot m)
    /\ releases (trace m') = releases (trace m).

Definition keeps_resources (f : Step.t) : Prop := quiet (Step.execute f).

(** A computation that returns whenever every write to a file goes through. *)
Definition returns {A} (c : M A) : Prop :=
  forall m, writable (env m) -> exists a, fst (c m) = Ok a.

(** A computation that raises nothing but the error of a failed write to a
    file. *)
Definition write_errors_only {A} (c : M A) : Prop :=
  forall m e, fst (c m) = Raise e -> exists n, append_fails (env m) n = Some e.

(** The pointer events of a trace, and a computation that adds none. *)
Definition is_pointer (e : event) : bool :=
  match e with
  | MoveTo _ _ _ | DragToPoint _ _ _ | ClickButton _ _ _ => true
  | _ => false
  end.

Definition pointer_events (tr : list event) : list event := List.filter is_pointer tr.

Definition hands_off {A} (c : M A) : Prop :=
  forall m, pointer_events (trace (snd (c m))) = pointer_events (trace m).

(** The outcomes of [attempt] in which no match is accepted. *)
Definition not_found (self : ClickOnReference.t) (o : oracle) : Prop :=
  let path := ClickOnReference.reference_path self in
  imread o path = None
  \/ (exists size e, imread o path = Some size /\ matching o path = Raise e)
  \/ (exists size s, imread o path = Some size /\ matching o path = Ok s
                     /\ ~ (ClickOnReference.threshold self <= max_val s)%Q).

(** The operations of [BotContext] that change the context. *)
Inductive context_op :=
| SetPlaywright (p : handle)
| SetBrowser (b : handle)
| SetContext (c : handle)
| SetPage (p : handle)
| SetCurrentElement (e : handle)
| StoreData (key : string) (v : Py.value).

Definition apply_op (o : context_op) (c : bot_context) : bot_context :=
  match o with
  | SetPlaywright p => BotContext.set_playwright p c
  | SetBrowser b => BotContext.set_browser b c
  | SetContext x => BotContext.set_context x c
  | SetPage p => BotContext.set_page p c
  | SetCurrentElement e => BotContext.set_current_element e c
  | StoreData k v => BotContext.store_data k v c
  end.

Definition apply_ops (ops : list context_op) (c : bot_context) : bot_context :=
  fold_left (fun c o => apply_op o c) ops c.

(** ** Sample runs

    Concrete environments and machines on which the statements below are
    exercised. *)

Module Sample.

Definition noon : datetime := DateTime 2025 1 2 12 0 0.

Fixpoint strip_zeros_rev (l : list ascii) : list ascii :=
  match l with
  | c :: rest => if Ascii.eqb c "0"%char then strip_zeros_rev rest else l
  | [] => []
  end.

Definition strip_trailing_zeros (s : string) : string :=
  string_of_list_ascii (rev (strip_zeros_rev (rev (list_ascii_of_string s)))).

(** The printer of the sample runs: positional notation, trailing zeros
    dropped and one digit kept, which is how Python prints the floats that
    occur in them ("500.0", "0.8"). *)
Definition positional (q : Q) : string :=
  let scale := 10 ^ 16 in
  let r := Z.abs (Py.round (q * inject_Z scale)) in
  let sign := if Qnum q <? 0 then "-"%string else EmptyString in
  let frac := strip_trailing_zeros (Py.digits 16 (r mod scale)) in
  sign +:+ Py.str_int (r / scale) +:+ "." +:+
    (match frac with EmptyString => "0"%string | _ => frac end).

(** Nothing fails; no reference image is on disk. *)
Definition calm : oracle :=
  Oracle (fun _ => noon) (fun _ => None) (fun n => Z.of_nat n)
         (1920%positive, 1080%positive)
         (fun _ => None)
         (fun _ => Raise (Exn "error" "OpenCV: assertion failed"))
         None (fun _ => None) positional.

(** Every write to a file fails. *)
Definition no_space : exn := Exn "OSError" "[Errno 28] No space left on device".

Definition full_disk : oracle :=
  Oracle (fun _ => noon) (fun _ => Some no_space) (fun n => Z.of_nat n)
         (1920%positive, 1080%positive)
         (fun _ => None)
         (fun _ => Raise (Exn "error" "OpenCV: assertion failed"))
         None (fun _ => None) positional.

(** The reference image, 40 by 20, is found at (100, 200) on a 1920 by
    1080 capture with correlation 0.95. *)
Definition sees : oracle :=
  Oracle (fun _ => noon) (fun _ => None) (fun n => Z.of_nat n)
         (1920%positive, 1080%positive)
         (fun _ => Some (40%positive, 20%positive))
         (fun _ => Ok (Sighting 1920 1080 (95#100) (100, 200)))
         None (fun _ => None) positional.

(** The disk fills up during the run: the writes from the sixth oracle
    reading on fail. *)
Definition fills_up : oracle :=
  Oracle (fun _ => noon)
         (fun n => if (5 <=? n)%nat then Some no_space else None)
         (fun n => Z.of_nat n)
         (1920%positive, 1080%positive)
         (fun _ => None)
         (fun _ => Raise (Exn "error" "OpenCV: assertion failed"))
         None (fun _ => None) positional.

(** One write fails, the one at the fourth oracle reading, and none
    after it. *)
Definition hiccup : oracle :=
  Oracle (fun _ => noon)
         (fun n => if (n =? 3)%nat then Some no_space else None)
         (fun n => Z.of_nat n)
         (1920%positive, 1080%positive)
         (fun _ => None)
         (fun _ => Raise (Exn "error" "OpenCV: assertion failed"))
         None (fun _ => None) positional.

(** The context [BotContext()] builds at noon. *)
Definition fresh_context : bot_context :=
  Context None None None None None ∅ [] "20250102120000" "./runs/20250102120000".

Definition machine_of (o : oracle) : machine :=
  Machine fresh_context o 0%nat 0%nat ∅ [].

(** The same machine once a page, number 7, has been opened. *)
Definition on_page (o : oracle) : machine :=
  with_bot (BotContext.set_page 7%nat fresh_context) (machine_of o).

(** A step that returns, a step that raises, and a step after them. *)
Definition sleeps : Step.t := Sleep.step (Sleep.init 3000 true 0).
Definition clicks : Step.t := ClickElement.step (ClickElement.Make "xpath=//a" 0).
Definition moves : Step.t := MouseMove.step (MouseMove.init (1#2) (1#3) 500 0).

End Sample.

(** ** More of lib/gui.py *)

Module Click.

Record t := Make { type : string; clicks : Z; delay : Q; wait : Q }.

Definition init (type : string) (clicks delay wait : Z) : t :=
  Make type clicks (GUIStep.seconds delay) (GUIStep.seconds wait).

Definition execute (self : t) : M unit :=
  GUIStep.click (type self) (clicks self) (delay self) ;;
  ms <- str_float (delay self * inject_Z 1000) ;;
  BotContext.log_action
    ("Clicked " +:+ type self +:+ " " +:+ Py.str_int (clicks self) +:+ " times with "
     +:+ ms +:+ "ms delay") "👆" ;;
  when (GUIStep.positive_float (wait self))
    (sleep (wait self) ;;
     ms <- str_float (wait self * inject_Z 1000) ;;
     BotContext.log_action ("Waited " +:+ ms +:+ "ms") "⏳").

Definition step (self : t) : Step.t := Step.Make "Click" (execute self).

End Click.

Module ClickAt.

Record t := Make {
  x : Z; y : Z; type : string; clicks : Z; delay : Q; wait : Q
}.

Definition init (x y : Z) (type : string) (clicks delay wait : Z) : t :=
  Make x y type clicks (GUIStep.seconds delay) (GUIStep.seconds wait).

Definition at_xy (self : t) : string :=
  "(" +:+ Py.str_int (x self) +:+ ", " +:+ Py.str_int (y self) +:+ ")".

Definition wait_ms (self : t) : string :=
  Py.format_fixed 0 (wait self * inject_Z 1000).

Definition execute (self : t) : M unit :=
  BotContext.log_action
    ("🎯 Clicking at absolute coordinates: " +:+ at_xy self) "🎯" ;;
  GUIStep.moveTo (x self) (y self) (1 # 2) ;;
  GUIStep.click (type self) (clicks self) (delay self) ;;
  BotContext.log_action ("✅ Successfully clicked at " +:+ at_xy self) "👆" ;;
  when (GUIStep.positive_float (wait self))
    (BotContext.log_action
       ("⏳ Starting wait of " +:+ wait_ms self +:+ "ms after click") "⏳" ;;
     sleep (wait self) ;;
     BotContext.log_action ("✅ Completed wait of " +:+ wait_ms self +:+ "ms") "⏳").

Definition step (self : t) : Step.t := Step.Make "ClickAt" (execute self).

End ClickAt.

(** ** More of lib/browser.py *)

Module Wait.

Record t := Make { miliseconds : Z }.

Definition init (miliseconds : Z) : t := Make miliseconds.

Definition execute (self : t) : M unit :=
  BrowserStep.wait_for_timeout (miliseconds self) ;;
  BotContext.log_action ("Waited " +:+ Py.str_int (miliseconds self) +:+ "ms") "⏳".

Definition step (self : t) : Step.t := Step.Make "Wait" (execute self).

End Wait.

Module StoreState.

Record t := Make { state_name : string }.

Definition init (state_name : string) : t := Make state_name.

(** [context.context.storage_state(path=...)]: the browser context writes
    what it holds, [content], to the file, replacing what was there; the
    environment decides whether the write goes through. *)
Definition storage_state (content : list string) (path : string) : M unit :=
  m <- get_machine ;;
  match context (bot m) with
  | None => raise (Exn "AttributeError"
                       "'NoneType' object has no attribute 'storage_state'")
  | Some _ =>
      n <- next_tick ;;
      match append_fails (env m) n with
      | Some e => raise e
      | None => modify (fun m => with_disk (<[path := content]> (disk m)) m)
      end
  end.

Definition execute (content : list string) (self : t) : M unit :=
  let path := "./states"%string in
  do (Makedirs path) ;;
  storage_state content (path +:+ "/" +:+ state_name self +:+ ".json") ;;
  BotContext.log_action ("Stored state " +:+ state_name self) "💾".

Definition step (content : list string) (self : t) : Step.t :=
  Step.Make "StoreState" (execute content self).

End StoreState.

(** The string operations [ClickAndDownload.execute] names the download
    with.  Strings are taken apart as lists of characters. *)
Module PyStr.

(** [s.rfind(c)]: the highest index of [c], or -1. *)
Fixpoint rfind (c : ascii) (s : list ascii) : Z :=
  match s with
  | [] => -1
  | x :: rest =>
      let i := rfind c rest in
      if 0 <=? i then i + 1 else if bool_decide (x = c) then 0 else -1
  end.

(** [s.split(c)]: never empty. *)
Fixpoint split (c : ascii) (s : list ascii) : list (list ascii) :=
  match s with
  | [] => [[]]
  | x :: rest =>
      if bool_decide (x = c) then [] :: split c rest
      else match split c rest with
           | part :: parts => (x :: part) :: parts
           | [] => [[x]]
           end
  end.

(** [c in s] and [s.endswith(c)]. *)
Definition contains (c : ascii) (s : list ascii) : bool := bool_decide (c ∈ s).

Definition endswith (s : list ascii) (c : ascii) : bool :=
  match last s with
  | Some x => bool_decide (x = c)
  | None => false
  end.

(** [os.path.splitext(p)], that is [genericpath._splitext(p, sep, altsep,
    '.')]: the extension starts at the last dot, when that dot comes after
    the last separator and after a character of the file name that is not
    a dot.  [sep] is '/' and [altsep] is absent on POSIX; they are the
    backslash and '/' on Windows. *)
Definition splitext (sep : ascii) (altsep : option ascii) (p : list ascii)
  : list ascii * list ascii :=
  let sepIndex :=
    match altsep with
    | Some alt => Z.max (rfind sep p) (rfind alt p)
    | None => rfind sep p
    end in
  let dotIndex := rfind "." p in
  if (sepIndex <? dotIndex)
     && existsb (fun c => negb (bool_decide (c = "."%char)))
          (take (Z.to_nat (dotIndex - (sepIndex + 1)))
             (drop (Z.to_nat (sepIndex + 1)) p))
  then (take (Z.to_nat dotIndex) p, drop (Z.to_nat dotIndex) p)
  else (p, []).

End PyStr.

(** What [page.expect_download()] hands over. *)
Module Download.
Record t := Make { url : string; suggested_filename : string }.
End Download.

(** The name [ClickAndDownload.execute] saves the download under (lines
    273 to 286). *)
Module DownloadName.

(** [download.url.split('/')[-1]]. *)
Definition url_path (url : string) : list ascii :=
  default [] (last (PyStr.split "/" (list_ascii_of_string url))).

(** [os.path.splitext(url_path.split('?')[0])]. *)
Definition before_query (url_path : list ascii) : list ascii :=
  default [] (head (PyStr.split "?" url_path)).

Definition stamped (extension : list ascii) : M string :=
  stamp <- BotContext.generate_timestamp ;;
  ret (stamp +:+ string_of_list_ascii extension).

Definition final_name (sep : ascii) (altsep : option ascii)
    (self : ClickAndDownload.t) (download : Download.t) : M string :=
  match ClickAndDownload.download_name self with
  | None =>
      let suggested_filename := Download.suggested_filename download in
      if Py.truthy (Some suggested_filename) then
        stamped (snd (PyStr.splitext sep altsep (list_ascii_of_string suggested_filename)))
      else
        let url_path := url_path (Download.url download) in
        if PyStr.contains "." url_path && negb (PyStr.endswith url_path "/") then
          stamped (snd (PyStr.splitext sep altsep (before_query url_path)))
        else
          BotContext.generate_timestamp
  | Some download_name => ret download_name
  end.

End DownloadName.

(** The calls on a Playwright page that leave no event of their own in the
    trace: what they do, and whether they raise, is the page's business. *)
Record page_api := PageApi {
  new_page : handle -> M handle;                    (* context.new_page() *)
  set_viewport_size : handle -> Z -> Z -> M unit;
  evaluate : handle -> string -> M unit;
  goto : handle -> string -> M unit
}.

Module NewPage.

Record t := Make { url : option string; wait : Z; width : Z; height : Z }.

(** The screen size is read when the step is built. *)
Definition init (url : option string) (wait : Z) : M t :=
  size <- GUIStep.get_screen_size ;;
  ret (Make url wait (fst size) (snd size)).

Definition maximize : string :=
  "() => { if (window.screen) { window.moveTo(0, 0); window.resizeTo(screen.width, screen.height); } }".

Definition size_text (self : t) : string :=
  Py.str_int (width self) +:+ "x" +:+ Py.str_int (height self).

Definition execute (api : page_api) (self : t) : M unit :=
  m <- get_machine ;;
  match context (bot m) with
  | None => raise (Exn "AttributeError" "'NoneType' object has no attribute 'new_page'")
  | Some c =>
      page <- new_page api c ;;
      set_viewport_size api page (width self) (height self) ;;
      try_except
        (evaluate api page maximize ;;
         BotContext.log_action ("Maximized browser window to " +:+ size_text self) "🖥️")
        (fun _ =>
           set_viewport_size api page (width self) (height self) ;;
           BotContext.log_action ("Set viewport size to " +:+ size_text self) "🖥️") ;;
      BotContext.log_action "Opened new browser page." "🌐" ;;
      when (Py.truthy (url self))
        (goto api page (default EmptyString (url self)) ;;
         BotContext.log_action
           ("Navigated to " +:+ default EmptyString (url self)) "🌐") ;;
      when (0 <? wait self)
        (do (PageWait page (wait self)) ;;
         BotContext.log_action ("Waited " +:+ Py.str_int (wait self) +:+ "ms") "⏳") ;;
      modify (fun m => with_bot (BotContext.set_page page (bot m)) m)
  end.

Definition step (api : page_api) (self : t) : Step.t :=
  Step.Make "NewPage" (execute api self).

End NewPage.

Module GoToURL.

Record t := Make { url : string; wait : Z }.

Definition init (url : string) (wait : Z) : t := Make url wait.

Definition execute (api : page_api) (self : t) : M unit :=
  p <- BrowserStep.current_page "goto" ;;
  goto api p (url self) ;;
  BotContext.log_action ("Navigated to " +:+ url self) "🌐" ;;
  BrowserStep.trailing_wait (wait self).

Definition step (api : page_api) (self : t) : Step.t :=
  Step.Make "GoToURL" (execute api self).

End GoToURL.

(** ** Notions for the further statements *)

(** A computation, and a step, that leaves the oracles of the machine
    alone. *)
Definition steady {A} (c : M A) : Prop :=
  forall m, env (snd (c m)) = env m.

Definition keeps_env (f : Step.t) : Prop := steady (Step.execute f).

(** A computation that adds no event of the kind [P] to the trace. *)
Definition silent (P : event -> bool) {A} (c : M A) : Prop :=
  forall m, List.filter P (trace (snd (c m))) = List.filter P (trace m).

Definition is_sleep (e : event) : bool :=
  match e with TimeSleep _ => true | _ => false end.

(** What a GUI step does to the desktop and to the clock: the pointer
    events and the sleeps of a trace, in order. *)
Definition is_action (e : event) : bool := is_pointer e || is_sleep e.

Definition actions (tr : list event) : list event := List.filter is_action tr.

(** A page whose calls leave the bot context and the oracles alone, and
    release nothing. *)
Definition outside (api : page_api) : Prop :=
  (forall c, framed (new_page api c))
  /\ (forall p w h, framed (set_viewport_size api p w h))
  /\ (forall p js, framed (evaluate api p js))
  /\ (forall p url, framed (goto api p url)).

(** A computation that changes the bot context by [f] when it returns and
    not at all when it raises. *)
Definition records (f : bot_context -> bot_context) {A} (c : M A) : Prop :=
  forall m,
    bot (snd (c m)) = match fst (c m) with Ok _ => f (bot m) | Raise _ => bot m end.

(** A reading of the clock whose fields fit their columns in
    [strftime]. *)
Definition fits_columns (d : datetime) : Prop :=
  0 <= year d < 10000 /\ 0 <= month d < 100 /\ 0 <= day d < 100
  /\ 0 <= hour d < 100 /\ 0 <= minute d < 100 /\ 0 <= second d < 100.

(** An extension: nothing, or a dot followed by characters that are
    neither dots nor path separators. *)
Definition plain_extension (sep : ascii) (altsep : option ascii) (ext : list ascii)
  : Prop :=
  ext = []
  \/ exists rest, ext = "."%char :: rest
       /\ ("."%char ∉ rest) /\ (sep ∉ rest)
       /\ (forall alt, altsep = Some alt -> alt ∉ rest).

(** [AttributeError] on [None]. *)
Definition none_has_no (attr : string) : exn :=
  Exn "AttributeError" ("'NoneType' object has no attribute '" +:+ attr +:+ "'").

(** ** Sample pages *)

Module SamplePage.

(** A page on which every call goes through. *)
Definition plain : page_api :=
  PageApi (fun _ => new_handle) (fun _ _ _ => ret tt) (fun _ _ => ret tt)
          (fun _ _ => ret tt).

(** A page on which scripts cannot be evaluated. *)
Definition no_script : page_api :=
  PageApi (fun _ => new_handle) (fun _ _ _ => ret tt)
          (fun _ _ => raise (Exn "Error" "Page.evaluate: Execution context was destroyed"))
          (fun _ _ => ret tt).

(** A page that cannot reach the network. *)
Definition offline : page_api :=
  PageApi (fun _ => new_handle) (fun _ _ _ => ret tt) (fun _ _ => ret tt)
          (fun _ _ => raise (Exn "Error" "Page.goto: net::ERR_INTERNET_DISCONNECTED")).

(** The machine once the bot has started: driver 0, browser 1, context 2. *)
Definition started (o : oracle) : machine :=
  Machine (BotContext.set_context 2%nat
             (BotContext.set_browser 1%nat
                (BotContext.set_playwright 0%nat Sample.fresh_context)))
          o 0%nat 3%nat ∅ [].

End SamplePage.

(** * Properties *)

(** Unfolding the monad and the machine updates. *)
Ltac unfold_monad :=
  unfold print, do in *;
  unfold bind, ret, raise, lift, try_except, when, get_machine, modify,
    next_tick, new_handle, emit, with_bot, with_tick, with_fresh,
    with_disk in *.

(** ** The action log *)

Section ActionLog.

Variables (action tag : string) (m : machine).

Lemma log_action_ok :
  append_fails (env m) (S (tick m)) = None ->
  BotContext.log_action action tag m = (Ok tt, after_log action tag m).
Proof.
  intros Hw. unfold BotContext.log_action, BotContext.get_current_datetime,
    datetime_now, append_line, after_log.
  unfold_monad. simpl. rewrite Hw. simpl. rewrite <- ?app_assoc. reflexivity.
Qed.

Lemma log_action_fail e :
  append_fails (env m) (S (tick m)) = Some e ->
  BotContext.log_action action tag m = (Raise e, after_failed_log action tag m).
Proof.
  intros Hw. unfold BotContext.log_action, BotContext.get_current_datetime,
    datetime_now, append_line, after_failed_log.
  unfold_monad. simpl. rewrite Hw. simpl. rewrite <- ?app_assoc. reflexivity.
Qed.

Lemma log_action_writable :
  writable (env m) ->
  BotContext.log_action action tag m = (Ok tt, after_log action tag m).
Proof. intros Hw. apply log_action_ok, Hw. Qed.

End ActionLog.

(** C7, as the code has it.  [log_action] prints the line and then appends
    it to [actions.log] of the run folder.  When the append goes through it
    returns; when the append fails the error is raised to the caller, with
    the line on the console and the file untouched: [log_action] catches
    nothing. *)
Theorem log_action_raises_what_the_write_raises (action tag : string) (m : machine) :
  match append_fails (env m) (S (tick m)) with
  | None =>
      BotContext.log_action action tag m = (Ok tt, after_log action tag m)
  | Some e =>
      BotContext.log_action action tag m = (Raise e, after_failed_log action tag m)
      /\ disk (after_failed_log action tag m) = disk m
  end.
Proof.
  destruct (append_fails (env m) (S (tick m))) as [e|] eqn:Hw.
  - split; [now apply log_action_fail | reflexivity].
  - now apply log_action_ok.
Qed.

(** C7 as stated fails: with a full disk, [log_action] called by a step
    raises [OSError] to that step. *)
Lemma log_action_raises_on_full_disk :
  fst (BotContext.log_action "Navigated to https://example.org" "🌐"
         (Sample.machine_of Sample.full_disk))
  = Raise Sample.no_space.
Proof. reflexivity. Qed.

(** ** The orchestrator *)

Lemma run_all_return pre rest m0 m1 :
  all_return pre m0 m1 ->
  SageBot.run (pre ++ rest) m0 = SageBot.run rest m1.
Proof.
  induction 1 as [|f fs m m1 m2 Hf _ IH]; [reflexivity|].
  simpl. unfold bind at 1, try_except, bind at 1. rewrite Hf. simpl. exact IH.
Qed.

Lemma run_raise B post m1 m2 e :
  Step.execute B m1 = (Raise e, m2) ->
  SageBot.run (B :: post) m1 =
  BotContext.log_action
    ("Error executing " +:+ Step.class_name B +:+ ": " +:+ exn_msg e) "❌" m2.
Proof.
  intros HB. simpl. unfold bind at 1, try_except, bind at 1. rewrite HB.
  unfold bind.
  destruct (BotContext.log_action _ _ m2) as [[[]|e'] m3]; reflexivity.
Qed.

Lemma log_action_prints action tag m :
  exists rest,
    trace (snd (BotContext.log_action action tag m)) =
    trace m ++
      Print (BotContext.log_line tag (strftime_readable (now (env m) (tick m))) action)
      :: rest.
Proof.
  destruct (append_fails (env m) (S (tick m))) as [e|] eqn:Hw.
  - rewrite (log_action_fail _ _ _ e Hw). now exists [].
  - rewrite (log_action_ok _ _ _ Hw). simpl. eauto.
Qed.

(** C1, as the code has it.  Let the steps before [B] be executed in order
    and return, and let [B] raise [e].  Then the loop of [execute] prints
    the line "[❌] <time> - Error executing <B's class name>: <e>" right
    after [B]'s own effects, and stops: the steps after [B] have no part in
    the result, which is the same for every list [post], the empty one
    included.  When the write to the run's [actions.log] goes through, the
    line is appended there and the loop returns; when it fails, the line is
    on the console only, the file is as it was, and the error of the write
    is raised out of the loop.  [execute] as a whole goes from the loop to
    the teardown, or raises with the loop. *)
Theorem orchestrator_fail_fast
    (pre post : list Step.t) (B : Step.t) (m0 m1 m2 : machine) (e : exn) :
  all_return pre m0 m1 ->
  Step.execute B m1 = (Raise e, m2) ->
  let failure :=
    "Error executing " +:+ Step.class_name B +:+ ": " +:+ exn_msg e in
  let line :=
    "[❌] " +:+ strftime_readable (now (env m2) (tick m2)) +:+ " - " +:+ failure in
  let file := run_folder (bot m2) +:+ "/actions.log" in
  let result := SageBot.run (pre ++ B :: post) m0 in
  result = SageBot.run (pre ++ [B]) m0
  /\ bot (snd result) = bot m2
  /\ match append_fails (env m2) (S (tick m2)) with
     | None =>
         fst result = Ok tt
         /\ trace (snd result) = trace m2 ++ [Print line; Write file line]
         /\ disk (snd result) !! file = Some (default [] (disk m2 !! file) ++ [line])
     | Some err =>
         fst result = Raise err
         /\ trace (snd result) = trace m2 ++ [Print line]
         /\ disk (snd result) = disk m2
     end
  /\ (forall self m,
        SageBot.functions self = pre ++ B :: post ->
        SageBot.startup self m = (Ok tt, m0) ->
        SageBot.execute self m
        = match append_fails (env m2) (S (tick m2)) with
          | None => SageBot.teardown (snd result)
          | Some err => (Raise err, snd result)
          end).
Proof.
  intros Hpre HB failure line file result.
  assert (Hrun : forall rest,
             SageBot.run (pre ++ B :: rest) m0 = BotContext.log_action failure "❌" m2).
  { intros rest. rewrite (run_all_return _ _ _ _ Hpre). now apply run_raise. }
  subst result. rewrite !Hrun.
  split; [reflexivity|].
  destruct (append_fails (env m2) (S (tick m2))) as [err|] eqn:Hw.
  - rewrite (log_action_fail _ _ _ err Hw).
    split; [reflexivity|]. split; [repeat split|].
    intros self m Hfs Hstart. unfold SageBot.execute.
    unfold bind at 1. rewrite Hstart. rewrite Hfs.
    unfold bind at 1. rewrite Hrun. now rewrite (log_action_fail _ _ _ err Hw).
  - rewrite (log_action_ok _ _ _ Hw).
    split; [reflexivity|]. split; [repeat split|].
    + simpl. apply lookup_insert_eq.
    + intros self m Hfs Hstart. unfold SageBot.execute.
      unfold bind at 1. rewrite Hstart. rewrite Hfs.
      unfold bind at 1. rewrite Hrun. now rewrite (log_action_ok _ _ _ Hw).
Qed.

Lemma orchestrator_fail_fast_witness :
  let m0 := Sample.machine_of Sample.calm in
  let m2 := snd (Step.execute Sample.clicks (snd (Step.execute Sample.sleeps m0))) in
  let line :=
    "[❌] 2025-01-02 12:00:00 - Error executing ClickElement: 'NoneType' object has no attribute 'locator'"%string in
  let result := SageBot.run ([Sample.sleeps] ++ Sample.clicks :: [Sample.moves]) m0 in
  fst result = Ok tt
  /\ trace (snd result)
     = trace m2 ++ [Print line; Write "./runs/20250102120000/actions.log" line].
Proof.
  intros m0 m2 line result.
  pose proof (orchestrator_fail_fast [Sample.sleeps] [Sample.moves] Sample.clicks
                m0 (snd (Step.execute Sample.sleeps m0)) m2
                (Exn "AttributeError" "'NoneType' object has no attribute 'locator'"))
    as H.
  destruct H as (_ & _ & (Hok & Htrace & _) & _).
  - apply all_return_cons with (m1 := snd (Step.execute Sample.sleeps m0));
      [reflexivity | constructor].
  - reflexivity.
  - split; [exact Hok | exact Htrace].
Defined.

(** C1 as stated fails: with a full disk the step's failure is not logged.
    The line is printed, the write to [actions.log] raises [OSError] inside
    the [except] block, and that error leaves the loop; nothing is written
    and the file does not exist. *)
Lemma failure_is_not_logged_on_full_disk :
  let result :=
    SageBot.run [Sample.clicks; Sample.moves] (Sample.machine_of Sample.full_disk) in
  fst result = Raise Sample.no_space
  /\ trace (snd result)
     = [Print "[❌] 2025-01-02 12:00:00 - Error executing ClickElement: 'NoneType' object has no attribute 'locator'"]
  /\ disk (snd result) = ∅.
Proof. repeat split. Qed.

(** ** Computations that only add to the trace *)

Lemma releases_app (l1 l2 : list event) :
  releases (l1 ++ l2) = releases l1 ++ releases l2.
Proof. apply List.filter_app. Qed.

Lemma framed_ret {A} (a : A) : framed (ret a).
Proof. intros m. simpl. repeat split. exists []. now rewrite app_nil_r. Qed.

Lemma framed_raise {A} e : framed (@raise A e).
Proof. intros m. simpl. repeat split. exists []. now rewrite app_nil_r. Qed.

Lemma framed_lift {A} (o : outcome A) : framed (lift o).
Proof. intros m. simpl. repeat split. exists []. now rewrite app_nil_r. Qed.

Lemma framed_get_machine : framed get_machine.
Proof. intros m. simpl. repeat split. exists []. now rewrite app_nil_r. Qed.

Lemma framed_next_tick : framed next_tick.
Proof. intros m. simpl. repeat split. exists []. now rewrite app_nil_r. Qed.

Lemma framed_new_handle : framed new_handle.
Proof. intros m. simpl. repeat split. exists []. now rewrite app_nil_r. Qed.

Lemma framed_do e : is_release e = false -> framed (do e).
Proof.
  intros He m. simpl. repeat split. exists [e]. split; [reflexivity|].
  unfold releases. simpl. now rewrite He.
Qed.

Lemma framed_bind {A B} (c : M A) (k : A -> M B) :
  framed c -> (forall a, framed (k a)) -> framed (bind c k).
Proof.
  intros Hc Hk m. specialize (Hc m). unfold bind.
  destruct (c m) as [[a|e] m1]; simpl in *.
  - specialize (Hk a m1). simpl in Hk.
    destruct Hc as (He & Hb & evs & Ht & Hr), Hk as (He' & Hb' & evs' & Ht' & Hr').
    repeat split; [congruence | congruence |].
    exists (evs ++ evs'). rewrite Ht', Ht, releases_app, Hr, Hr'.
    now rewrite app_assoc.
  - exact Hc.
Qed.

Lemma framed_try {A} (c : M A) (h : exn -> M A) :
  framed c -> (forall e, framed (h e)) -> framed (try_except c h).
Proof.
  intros Hc Hk m. specialize (Hc m). unfold try_except.
  destruct (c m) as [[a|e] m1]; simpl in *.
  - exact Hc.
  - specialize (Hk e m1). simpl in Hk.
    destruct Hc as (He & Hb & evs & Ht & Hr), Hk as (He' & Hb' & evs' & Ht' & Hr').
    repeat split; [congruence | congruence |].
    exists (evs ++ evs'). rewrite Ht', Ht, releases_app, Hr, Hr'.
    now rewrite app_assoc.
Qed.

Lemma framed_when b c : framed c -> framed (when b c).
Proof. destruct b; simpl; auto using framed_ret. Qed.

Lemma framed_sleep q : framed (sleep q).
Proof.
  unfold sleep. destruct (Qnum q <? 0); auto using framed_raise, framed_do.
Qed.

Lemma framed_log_action a t : framed (BotContext.log_action a t).
Proof.
  intros m. destruct (append_fails (env m) (S (tick m))) as [e|] eqn:Hw.
  - rewrite (log_action_fail _ _ _ e Hw). simpl. repeat split. eauto.
  - rewrite (log_action_ok _ _ _ Hw). simpl. repeat split. eauto.
Qed.

Create HintDb framed.
#[export] Hint Resolve framed_ret framed_raise framed_lift framed_get_machine framed_next_tick
  framed_new_handle framed_do framed_bind framed_try framed_when framed_sleep framed_log_action : framed.
#[export] Hint Extern 1 (is_release _ = false) => reflexivity : framed.

Lemma framed_after {A} (k : M A) (e : event) (m : machine) :
  framed k -> exists rest, trace (snd (k (emit e m))) = trace m ++ e :: rest.
Proof.
  intros Hk. destruct (Hk (emit e m)) as (_ & _ & evs & Ht & _).
  exists evs. rewrite Ht. simpl. now rewrite <- app_assoc.
Qed.

Lemma str_float_bind {A} x (k : string -> M A) m :
  bind (str_float x) k m = k (float_str (env m) x) m.
Proof. reflexivity. Qed.

Lemma framed_str_float x : framed (str_float x).
Proof. unfold str_float. auto with framed. Qed.

Lemma framed_print line : framed (print line).
Proof. now apply framed_do. Qed.

Lemma framed_pointer (e : event) :
  is_release e = false ->
  framed (m <- get_machine ;; match pointer (env m) with
                               | Some err => raise err
                               | None => do e
                               end).
Proof.
  intros He. apply framed_bind; [apply framed_get_machine|].
  intros m. destruct (pointer (env m)); auto with framed.
Qed.

Lemma framed_moveTo x y d : framed (GUIStep.moveTo x y d).
Proof. now apply framed_pointer. Qed.

Lemma framed_dragTo x y d : framed (GUIStep.dragTo x y d).
Proof. now apply framed_pointer. Qed.

Lemma framed_click b c i : framed (GUIStep.click b c i).
Proof. now apply framed_pointer. Qed.

#[export] Hint Resolve framed_str_float framed_print framed_moveTo framed_dragTo
  framed_click : framed.

(** ** Rounding *)

Lemma round_cases (q : Q) :
  let n := Qnum q in let d := Z.pos (Qden q) in
  (Py.round q = n / d \/ Py.round q = n / d + 1) /\
  (n mod d = 0 -> Py.round q = n / d).
Proof.
  intros n d. unfold Py.round. fold n d.
  assert (Hd : 0 < d) by (unfold d; lia).
  pose proof (Z.mod_pos_bound n d Hd) as Hm.
  split.
  - destruct (2 * (n mod d) ?= d); [destruct (Z.even (n / d))|..]; auto.
  - intros H0. rewrite H0. reflexivity.
Qed.

Lemma round_between (a b : Z) (q : Q) :
  (inject_Z a <= q)%Q -> (q <= inject_Z b)%Q -> a <= Py.round q <= b.
Proof.
  intros Ha Hb. unfold Qle in Ha, Hb. simpl in Ha, Hb.
  destruct (round_cases q) as [Hc H0].
  set (n := Qnum q) in *. set (d := Z.pos (Qden q)) in *.
  assert (Hd : 0 < d) by (unfold d; lia).
  pose proof (Z.div_mod n d ltac:(lia)) as Hdm.
  pose proof (Z.mod_pos_bound n d Hd) as Hm.
  assert (Hlo : a <= n / d) by (apply Z.div_le_lower_bound; lia).
  assert (Hhi : n / d <= b) by (apply Z.div_le_upper_bound; lia).
  destruct (Z.eq_dec (n / d) b) as [Heq|Hne].
  - assert (n mod d = 0) by nia. rewrite (H0 H). lia.
  - destruct Hc as [-> | ->]; lia.
Qed.

Lemma round_inject (z : Z) (q : Q) : (q == inject_Z z)%Q -> Py.round q = z.
Proof.
  intros Hq. unfold Qeq in Hq. simpl in Hq.
  destruct (round_cases q) as [_ H0].
  set (n := Qnum q) in *. set (d := Z.pos (Qden q)) in *.
  assert (Hd : 0 < d) by (unfold d; lia).
  assert (Hn : n = z * d) by lia.
  rewrite H0; rewrite Hn.
  - apply Z.div_mul. lia.
  - apply Z.mod_mul. lia.
Qed.

(** ** Ratio-based pointer steps *)

Lemma scaled_ratio_on_screen (ratio : Q) (size : positive) :
  (0 <= ratio)%Q -> (ratio <= 1)%Q ->
  0 <= Py.round (ratio * inject_Z (Z.pos size)) <= Z.pos size.
Proof.
  intros H0 H1.
  assert (Hs : (0 <= inject_Z (Z.pos size))%Q) by (unfold Qle; simpl; lia).
  apply round_between.
  - now apply Qmult_le_0_compat.
  - apply Qle_trans with (1 * inject_Z (Z.pos size))%Q.
    + now apply Qmult_le_compat_r.
    + rewrite Qmult_1_l. apply Qle_refl.
Qed.

Lemma moveTo_then {A} (k : M A) x y d m :
  pointer (env m) = None -> framed k ->
  exists rest,
    trace (snd ((GUIStep.moveTo x y d ;; k) m)) = trace m ++ MoveTo x y d :: rest.
Proof.
  intros Hp Hk. unfold GUIStep.moveTo. unfold_monad. rewrite Hp.
  now apply (framed_after k).
Qed.

Lemma dragTo_then {A} (k : M A) x y d m :
  pointer (env m) = None -> framed k ->
  exists rest,
    trace (snd ((GUIStep.dragTo x y d ;; k) m)) = trace m ++ DragToPoint x y d :: rest.
Proof.
  intros Hp Hk. unfold GUIStep.dragTo. unfold_monad. rewrite Hp.
  now apply (framed_after k).
Qed.

(** C5.  For ratios in [[0,1]] and every screen size [(w, h)], the pixel
    [round(x_ratio * w), round(y_ratio * h)] lies in [0..w] x [0..h]; it is
    the point [MouseMove.execute] moves to and [DragTo.execute] drags to. *)
Theorem ratio_steps_stay_on_screen
    (x_ratio y_ratio : Q) (duration wait : Z) (m : machine) :
  (0 <= x_ratio)%Q -> (x_ratio <= 1)%Q ->
  (0 <= y_ratio)%Q -> (y_ratio <= 1)%Q ->
  let w := Z.pos (fst (screen_size (env m))) in
  let h := Z.pos (snd (screen_size (env m))) in
  let pixelX := Py.round (x_ratio * inject_Z w) in
  let pixelY := Py.round (y_ratio * inject_Z h) in
  0 <= pixelX <= w /\ 0 <= pixelY <= h
  /\ (pointer (env m) = None ->
      (exists rest,
         trace (snd (MouseMove.execute (MouseMove.init x_ratio y_ratio duration wait) m))
         = trace m ++ MoveTo pixelX pixelY (GUIStep.seconds duration) :: rest)
      /\ (exists rest,
         trace (snd (DragTo.execute (DragTo.init x_ratio y_ratio duration wait) m))
         = trace m ++ DragToPoint pixelX pixelY (GUIStep.seconds duration) :: rest)).
Proof.
  intros Hx0 Hx1 Hy0 Hy1 w h pixelX pixelY.
  split; [now apply scaled_ratio_on_screen|].
  split; [now apply scaled_ratio_on_screen|].
  intros Hp. split.
  - unfold MouseMove.execute. unfold bind at 1. simpl.
    apply moveTo_then; auto 10 with framed.
  - unfold DragTo.execute. unfold bind at 1. simpl.
    apply dragTo_then; auto 10 with framed.
Qed.

Lemma ratio_steps_stay_on_screen_witness :
  0 <= Py.round ((1#2) * inject_Z 1920) <= 1920
  /\ 0 <= Py.round ((1#3) * inject_Z 1080) <= 1080.
Proof.
  pose proof (ratio_steps_stay_on_screen (1#2) (1#3) 500 0
                (Sample.machine_of Sample.calm)
                ltac:(discriminate) ltac:(discriminate)
                ltac:(discriminate) ltac:(discriminate)) as H.
  simpl in H. destruct H as (Hx & Hy & _). split; assumption.
Defined.

(** ** The screen locator *)

Lemma truediv_round_trip (c : Z) (dimension : positive) :
  Py.round (Py.truediv c dimension * inject_Z (Z.pos dimension)) = c.
Proof.
  apply round_inject. unfold Py.truediv. field.
  unfold Qeq. simpl. lia.
Qed.

Lemma pixel_of_ratios (c : Z * Z) (w h : positive) :
  ClickOnReference.pixel (ClickOnReference.ratios c w h) w h = c.
Proof.
  destruct c as [cx cy]. unfold ClickOnReference.pixel, ClickOnReference.ratios.
  simpl. now rewrite !truediv_round_trip.
Qed.

Lemma moveTo_ok x y d m :
  pointer (env m) = None -> GUIStep.moveTo x y d m = (Ok tt, emit (MoveTo x y d) m).
Proof. intros Hp. unfold GUIStep.moveTo, bind, get_machine. now rewrite Hp. Qed.

Lemma click_ok b c i m :
  pointer (env m) = None ->
  GUIStep.click b c i m = (Ok tt, emit (ClickButton b c i) m).
Proof. intros Hp. unfold GUIStep.click, bind, get_machine. now rewrite Hp. Qed.

Lemma moveTo_click_then {A} (k : M A) x y d b c i m :
  pointer (env m) = None -> framed k ->
  exists rest,
    trace (snd ((GUIStep.moveTo x y d ;; GUIStep.click b c i ;; k) m))
    = trace m ++ MoveTo x y d :: ClickButton b c i :: rest.
Proof.
  intros Hp Hk. unfold bind. rewrite (moveTo_ok _ _ _ _ Hp).
  rewrite click_ok by exact Hp.
  destruct (Hk (emit (ClickButton b c i) (emit (MoveTo x y d) m))) as (_ & _ & evs & Ht & _).
  exists evs. rewrite Ht. simpl. rewrite <- !app_assoc. reflexivity.
Qed.

Lemma try_then_trace {A B} (c : M A) (h : exn -> M A) (k : A -> M B) m :
  (forall e, framed (h e)) -> (forall a, framed (k a)) ->
  exists evs,
    trace (snd ((x <- try_except c h ;; k x) m)) = trace (snd (c m)) ++ evs.
Proof.
  intros Hh Hk. unfold bind, try_except.
  destruct (c m) as [[a|e] m1]; simpl.
  - destruct (Hk a m1) as (_ & _ & evs & Ht & _). eauto.
  - destruct (Hh e m1) as (_ & _ & evs & Ht & _).
    destruct (h e m1) as [[a|e'] m2]; simpl in *.
    + destruct (Hk a m2) as (_ & _ & evs' & Ht' & _).
      exists (evs ++ evs'). rewrite Ht', Ht. now rewrite app_assoc.
    + eauto.
Qed.

Lemma after_log_trace m m' :
  (exists action tag, m' = after_log action tag m) ->
  exists evs, trace m' = trace m ++ evs.
Proof. intros (action & tag & ->). simpl. eauto. Qed.

Lemma execute_found (self : ClickOnReference.t) (m : machine)
    (template_width template_height : positive) (s : sighting) :
  imread (env m) (ClickOnReference.reference_path self)
    = Some (template_width, template_height) ->
  matching (env m) (ClickOnReference.reference_path self) = Ok s ->
  (ClickOnReference.threshold self <= max_val s)%Q ->
  writable (env m) -> pointer (env m) = None ->
  let c := ClickOnReference.center (max_loc s) template_width template_height in
  exists before after,
    trace (snd (ClickOnReference.execute self m))
    = trace m ++ before
      ++ MoveTo (fst c) (snd c) (ClickOnReference.duration self)
      :: ClickButton (ClickOnReference.type self) (ClickOnReference.clicks self)
           (ClickOnReference.delay self)
      :: after.
Proof.
  intros Him Hmatch Hth Hw Hp c.
  unfold ClickOnReference.execute.
  unfold bind at 1. rewrite (log_action_writable _ _ _ Hw).
  set (m1 := after_log _ _ m).
  destruct (try_then_trace (ClickOnReference.attempt self)
    (fun e => print ("❌ Error in ClickOnReference: " +:+ exn_msg e) ;;
              BotContext.log_action ("❌ Error in ClickOnReference: " +:+ exn_msg e) "❌" ;;
              ret false)
    (fun returned : bool => if returned then ret tt else
      BotContext.log_action "❌ ClickOnReference failed - executing fallback wait" "❌" ;;
      when (GUIStep.positive_float (ClickOnReference.wait self))
        (BotContext.log_action
           ("⏳ Starting fallback wait of " +:+ ClickOnReference.wait_ms self +:+ "ms") "⏳" ;;
         sleep (ClickOnReference.wait self) ;;
         BotContext.log_action
           ("✅ Completed fallback wait of " +:+ ClickOnReference.wait_ms self +:+ "ms") "⏳"))
    m1) as (evs & Hevs).
  { intros e. auto 10 with framed. }
  { intros [|]; auto 10 with framed. }
  rewrite Hevs. clear Hevs.
  unfold ClickOnReference.attempt.
  unfold bind at 1, get_machine at 1.
  change (env m1) with (env m). rewrite Him.
  unfold bind at 1. rewrite (log_action_writable _ _ m1 Hw).
  set (m2 := after_log _ _ m1).
  unfold bind at 1, lift at 1. rewrite Hmatch. rewrite str_float_bind.
  change (env m2) with (env m).
  unfold bind at 1. rewrite (log_action_writable _ _ m2 Hw).
  set (m3 := after_log _ _ m2).
  assert (Hb : Qle_bool (ClickOnReference.threshold self) (max_val s) = true)
    by now apply Qle_bool_iff.
  rewrite Hb.
  rewrite pixel_of_ratios. fold c.
  unfold bind at 1. rewrite (log_action_writable _ _ m3 Hw).
  set (m4 := after_log _ _ m3).
  match goal with
  | |- context [ bind (GUIStep.moveTo ?x ?y ?d)
                   (fun _ => bind (GUIStep.click ?b ?n ?i) (fun _ => ?k)) ?mm ] =>
      destruct (moveTo_click_then k x y d b n i mm Hp) as (rest & Hrest);
      [auto 10 with framed | rewrite Hrest]
  end.
  assert (Hpre : exists before, trace m4 = trace m ++ before).
  { destruct (after_log_trace m3 m4) as (e4 & ->); [now eexists; eexists|].
    destruct (after_log_trace m2 m3) as (e3 & ->); [now eexists; eexists|].
    destruct (after_log_trace m1 m2) as (e2 & ->); [now eexists; eexists|].
    destruct (after_log_trace m m1) as (e1 & ->); [now eexists; eexists|].
    exists (e1 ++ e2 ++ e3 ++ e4). now rewrite <- !app_assoc. }
  destruct Hpre as (before & ->).
  exists before, (rest ++ evs). rewrite <- !app_assoc. reflexivity.
Qed.

(** C4.  On a match (peak correlation at or above the threshold) the centre
    is the peak's top-left corner plus half the template's width and height
    (integer halves), the ratios are the centre divided by the capture's
    width and height, and the pixel recomputed from the ratios against the
    same capture is the centre again: [round((c / dimension) * dimension) = c]
    for every integer [c].  The pointer is moved to the centre and clicked
    there. *)
Theorem click_lands_on_match_center
    (self : ClickOnReference.t) (m : machine)
    (template_width template_height : positive) (s : sighting) :
  imread (env m) (ClickOnReference.reference_path self)
    = Some (template_width, template_height) ->
  matching (env m) (ClickOnReference.reference_path self) = Ok s ->
  (ClickOnReference.threshold self <= max_val s)%Q ->
  let centerX := fst (max_loc s) + Z.pos template_width / 2 in
  let centerY := snd (max_loc s) + Z.pos template_height / 2 in
  let xRatio := (inject_Z centerX / inject_Z (Z.pos (screenshot_width s)))%Q in
  let yRatio := (inject_Z centerY / inject_Z (Z.pos (screenshot_height s)))%Q in
  ClickOnReference.center (max_loc s) template_width template_height
    = (centerX, centerY)
  /\ ClickOnReference.ratios (centerX, centerY)
        (screenshot_width s) (screenshot_height s) = (xRatio, yRatio)
  /\ (forall (c : Z) (dimension : positive),
        Py.round ((inject_Z c / inject_Z (Z.pos dimension))
                  * inject_Z (Z.pos dimension)) = c)
  /\ ClickOnReference.pixel (xRatio, yRatio)
        (screenshot_width s) (screenshot_height s) = (centerX, centerY)
  /\ (writable (env m) -> pointer (env m) = None ->
      exists before after,
        trace (snd (ClickOnReference.execute self m))
        = trace m ++ before
          ++ MoveTo centerX centerY (ClickOnReference.duration self)
          :: ClickButton (ClickOnReference.type self) (ClickOnReference.clicks self)
               (ClickOnReference.delay self)
          :: after).
Proof.
  intros Him Hmatch Hth centerX centerY xRatio yRatio.
  split; [reflexivity|]. split; [reflexivity|].
  split; [exact truediv_round_trip|].
  split; [exact (pixel_of_ratios (centerX, centerY) _ _)|].
  intros Hw Hp.
  exact (execute_found self m template_width template_height s Him Hmatch Hth Hw Hp).
Qed.

Lemma click_lands_on_match_center_witness :
  ClickOnReference.center (100, 200) 40 20 = (120, 210)
  /\ ClickOnReference.pixel
        ((inject_Z 120 / inject_Z 1920)%Q, (inject_Z 210 / inject_Z 1080)%Q)
        1920 1080 = (120, 210).
Proof.
  pose proof (click_lands_on_match_center
                (ClickOnReference.init "1" "left" 1 100 100 0 (8#10))
                (Sample.machine_of Sample.sees) 40 20
                (Sighting 1920 1080 (95#100) (100, 200))
                eq_refl eq_refl ltac:(discriminate)) as (Hc & _ & _ & Hp & _).
  split; [exact Hc | exact Hp].
Defined.

(** ** The screen locator never gives up the run on its own *)

Lemma returns_ret {A} (a : A) : returns (ret a).
Proof. intros m _. now exists a. Qed.

Lemma returns_do e : returns (do e).
Proof. intros m _. now exists tt. Qed.

Lemma returns_print line : returns (print line).
Proof. apply returns_do. Qed.

Lemma returns_log_action a t : returns (BotContext.log_action a t).
Proof. intros m Hw. rewrite (log_action_writable _ _ _ Hw). now exists tt. Qed.

Lemma returns_bind {A B} (c : M A) (k : A -> M B) :
  returns c -> framed c -> (forall a, returns (k a)) -> returns (bind c k).
Proof.
  intros Hc Hf Hk m Hw. destruct (Hc m Hw) as (a & Ha).
  destruct (Hf m) as (He & _). unfold bind.
  destruct (c m) as [o m1]; simpl in *. subst o.
  apply Hk. now rewrite He.
Qed.

Lemma returns_try {A} (c : M A) (h : exn -> M A) :
  framed c -> (forall e, returns (h e)) -> returns (try_except c h).
Proof.
  intros Hf Hh m Hw. destruct (Hf m) as (He & _). unfold try_except.
  destruct (c m) as [[a|e] m1]; simpl in *.
  - now exists a.
  - apply Hh. now rewrite He.
Qed.

Lemma sleep_positive q :
  GUIStep.positive_float q = true -> sleep q = do (TimeSleep q).
Proof.
  unfold GUIStep.positive_float, sleep. intros H.
  apply Z.ltb_lt in H. destruct (Z.ltb_spec (Qnum q) 0); [lia | reflexivity].
Qed.

Lemma returns_when_positive q (c : M unit) :
  (GUIStep.positive_float q = true -> returns c) ->
  returns (when (GUIStep.positive_float q) c).
Proof.
  destruct (GUIStep.positive_float q); simpl; auto using returns_ret.
Qed.

Create HintDb returns.
#[export] Hint Resolve returns_ret returns_do returns_print returns_log_action
  returns_bind returns_try : returns.

Lemma framed_attempt self : framed (ClickOnReference.attempt self).
Proof.
  unfold ClickOnReference.attempt.
  apply framed_bind; [apply framed_get_machine|]. intros m.
  destruct (imread (env m) _) as [[tw th]|]; [|auto 20 with framed].
  apply framed_bind; [auto with framed|]. intros _.
  apply framed_bind; [auto with framed|]. intros s.
  apply framed_bind; [auto with framed|]. intros needed.
  apply framed_bind; [auto with framed|]. intros _.
  destruct (Qle_bool _ _); auto 20 with framed.
Qed.

Lemma framed_execute self : framed (ClickOnReference.execute self).
Proof.
  unfold ClickOnReference.execute.
  apply framed_bind; [auto with framed|]. intros _.
  apply framed_bind.
  - apply framed_try; [apply framed_attempt | auto 10 with framed].
  - intros [|]; auto 20 with framed.
Qed.

Lemma returns_execute self : returns (ClickOnReference.execute self).
Proof.
  unfold ClickOnReference.execute.
  apply returns_bind; [auto with returns | auto with framed |]. intros _.
  apply returns_bind.
  - apply returns_try; [apply framed_attempt|].
    intros e. auto 10 with returns framed.
  - apply framed_try; [apply framed_attempt | auto 10 with framed].
  - intros [|]; [apply returns_ret|].
    apply returns_bind; [auto with returns | auto with framed |]. intros _.
    apply returns_when_positive. intros Hpos.
    rewrite (sleep_positive _ Hpos).
    auto 10 with returns framed.
Qed.

Lemma logged_later tag action m m' :
  logged tag action m -> env m' = env m -> bot m' = bot m ->
  (exists evs, trace m' = trace m ++ evs) ->
  logged tag action m'.
Proof.
  intros (n & Hin) He Hb (evs & Ht). exists n.
  rewrite He, Hb, Ht. apply elem_of_app. now left.
Qed.

Lemma logged_after_log action tag m : logged tag action (after_log action tag m).
Proof.
  exists (tick m). simpl.
  apply elem_of_app. right. apply elem_of_cons. right. apply elem_of_cons. now left.
Qed.

Lemma log_then {A} (k : M A) action tag m :
  writable (env m) -> framed k ->
  logged tag action (snd ((BotContext.log_action action tag ;; k) m)).
Proof.
  intros Hw Hk. unfold bind. rewrite (log_action_writable _ _ _ Hw).
  destruct (Hk (after_log action tag m)) as (He & Hb & evs & Ht & _).
  apply logged_later with (m := after_log action tag m);
    [apply logged_after_log | exact He | exact Hb | eauto].
Qed.

Lemma print_log_then {A} (k : M A) action tag m :
  writable (env m) -> framed k ->
  logged tag action
    (snd ((print action ;; BotContext.log_action action tag ;; k) m)).
Proof.
  intros Hw Hk. unfold bind at 1. unfold print, do, modify.
  apply (log_then k action tag (emit (Print action) m) Hw Hk).
Qed.

Section NotFound.

Variables (self : ClickOnReference.t) (m : machine).
Hypothesis Hw : writable (env m).

Let path := ClickOnReference.reference_path self.
Let m1 := after_log ("🔍 Searching for reference image: " +:+ path) "🔍" m.

Lemma execute_after_attempt tag action :
  logged tag action (snd (ClickOnReference.attempt self m1)) ->
  logged tag action (snd (ClickOnReference.execute self m)).
Proof.
  intros Hlog. unfold ClickOnReference.execute.
  unfold bind at 1. rewrite (log_action_writable _ _ _ Hw). fold path m1.
  match goal with
  | |- logged _ _ (snd (bind (try_except ?c ?h) ?k m1)) =>
      destruct (try_then_trace c h k m1) as (evs & Hevs);
      [intros e; auto 10 with framed | intros [|]; auto 20 with framed |];
      assert (Hf : framed (bind (try_except c h) k))
  end.
  { apply framed_bind.
    - apply framed_try; [apply framed_attempt | auto 10 with framed].
    - intros [|]; auto 20 with framed. }
  destruct (Hf m1) as (He & Hb & _).
  destruct (framed_attempt self m1) as (He' & Hb' & _).
  eapply logged_later; [exact Hlog | congruence | congruence | eauto].
Qed.

Lemma execute_missing_file :
  imread (env m) path = None ->
  logged "❌" ("Image not found: " +:+ path) (snd (ClickOnReference.execute self m)).
Proof.
  intros Him. apply execute_after_attempt.
  unfold ClickOnReference.attempt. unfold bind at 1, get_machine at 1.
  change (env m1) with (env m). fold path. rewrite Him.
  apply print_log_then; [exact Hw | auto 20 with framed].
Qed.

Lemma execute_below_threshold tw th s :
  imread (env m) path = Some (tw, th) ->
  matching (env m) path = Ok s ->
  ~ (ClickOnReference.threshold self <= max_val s)%Q ->
  logged "❌"
    ("❌ No reference match found (confidence: " +:+ Py.format_fixed 4 (max_val s)
     +:+ ", needed: " +:+ float_str (env m) (ClickOnReference.threshold self) +:+ ")")
    (snd (ClickOnReference.execute self m)).
Proof.
  intros Him Hmatch Hth. apply execute_after_attempt.
  unfold ClickOnReference.attempt. unfold bind at 1, get_machine at 1.
  change (env m1) with (env m). fold path. rewrite Him.
  unfold bind at 1. rewrite (log_action_writable _ _ m1 Hw).
  unfold bind at 1, lift at 1. rewrite Hmatch. rewrite str_float_bind.
  unfold bind at 1. rewrite log_action_writable by exact Hw.
  assert (Hb : Qle_bool (ClickOnReference.threshold self) (max_val s) = false).
  { destruct (Qle_bool _ _) eqn:E; [|reflexivity].
    apply Qle_bool_iff in E. contradiction. }
  rewrite Hb. rewrite str_float_bind.
  apply print_log_then; [exact Hw | auto 20 with framed].
Qed.

End NotFound.

(** *** What [execute] can raise *)

Lemma only_ret {A} (a : A) : write_errors_only (ret a).
Proof. intros m e. discriminate. Qed.

Lemma only_do ev : write_errors_only (do ev).
Proof. intros m e. discriminate. Qed.

Lemma only_print line : write_errors_only (print line).
Proof. apply only_do. Qed.

Lemma only_log_action a t : write_errors_only (BotContext.log_action a t).
Proof.
  intros m e. destruct (append_fails (env m) (S (tick m))) as [err|] eqn:Hw.
  - rewrite (log_action_fail _ _ _ err Hw). intros [= <-]. eauto.
  - rewrite (log_action_ok _ _ _ Hw). discriminate.
Qed.

Lemma only_bind {A B} (c : M A) (k : A -> M B) :
  framed c -> write_errors_only c -> (forall a, write_errors_only (k a)) ->
  write_errors_only (bind c k).
Proof.
  intros Hf Hc Hk m e. specialize (Hc m). destruct (Hf m) as (He & _).
  unfold bind. destruct (c m) as [[a|e'] m1]; simpl in *.
  - rewrite <- He. apply Hk.
  - intros [= <-]. now apply Hc.
Qed.

Lemma only_try {A} (c : M A) (h : exn -> M A) :
  framed c -> (forall e, write_errors_only (h e)) -> write_errors_only (try_except c h).
Proof.
  intros Hf Hh m e. destruct (Hf m) as (He & _). unfold try_except.
  destruct (c m) as [[a|e'] m1]; simpl in *; [discriminate|].
  rewrite <- He. apply Hh.
Qed.

Lemma only_when_positive q (c : M unit) :
  (GUIStep.positive_float q = true -> write_errors_only c) ->
  write_errors_only (when (GUIStep.positive_float q) c).
Proof.
  destruct (GUIStep.positive_float q); simpl; auto using only_ret.
Qed.

Create HintDb only.
#[export] Hint Resolve only_ret only_do only_print only_log_action only_bind only_try
  : only.

Lemma only_execute self : write_errors_only (ClickOnReference.execute self).
Proof.
  unfold ClickOnReference.execute.
  apply only_bind; [auto with framed | auto with only |]. intros _.
  apply only_bind.
  - apply framed_try; [apply framed_attempt | auto 10 with framed].
  - apply only_try; [apply framed_attempt|].
    intros e. auto 10 with only framed.
  - intros [|]; [apply only_ret|].
    apply only_bind; [auto with framed | auto with only |]. intros _.
    apply only_when_positive. intros Hpos.
    rewrite (sleep_positive _ Hpos).
    auto 10 with only framed.
Qed.

(** An exception raised in the [try], whatever it is, is caught, printed
    and logged, and the fallback follows, when the writes from then on go
    through. *)
Lemma execute_catches (self : ClickOnReference.t) (m m2 : machine) (err : exn) :
  append_fails (env m) (S (tick m)) = None ->
  ClickOnReference.attempt self
    (after_log ("🔍 Searching for reference image: "
                +:+ ClickOnReference.reference_path self) "🔍" m)
  = (Raise err, m2) ->
  (forall n, (tick m2 <= n)%nat -> append_fails (env m) n = None) ->
  fst (ClickOnReference.execute self m) = Ok tt
  /\ Print ("❌ Error in ClickOnReference: " +:+ exn_msg err)
     ∈ trace (snd (ClickOnReference.execute self m))
  /\ logged "❌" ("❌ Error in ClickOnReference: " +:+ exn_msg err)
       (snd (ClickOnReference.execute self m)).
Proof.
  intros Hfirst Hattempt Hlate.
  pose proof (framed_attempt self
                (after_log ("🔍 Searching for reference image: "
                            +:+ ClickOnReference.reference_path self) "🔍" m)) as Hf.
  simpl in Hf. rewrite Hattempt in Hf. simpl in Hf. destruct Hf as (He & Hb & _).
  set (caught := after_log ("❌ Error in ClickOnReference: " +:+ exn_msg err) "❌"
                   (emit (Print ("❌ Error in ClickOnReference: " +:+ exn_msg err)) m2)).
  assert (Hcaught : logged "❌" ("❌ Error in ClickOnReference: " +:+ exn_msg err) caught)
    by apply logged_after_log.
  assert (Hprinted : Print ("❌ Error in ClickOnReference: " +:+ exn_msg err)
                     ∈ trace caught).
  { subst caught. simpl. rewrite !elem_of_app. left. right.
    apply list_elem_of_singleton. reflexivity. }
  assert (Hrun : exists m' evs,
             ClickOnReference.execute self m = (Ok tt, m')
             /\ env m' = env caught /\ bot m' = bot caught
             /\ trace m' = trace caught ++ evs).
  { unfold ClickOnReference.execute.
    unfold bind at 1. rewrite (log_action_ok _ _ _ Hfirst).
    unfold bind at 1, try_except. rewrite Hattempt.
    unfold bind at 1. unfold print at 1, do at 1, modify at 1.
    unfold bind at 1.
    rewrite log_action_ok by (simpl; rewrite He; apply Hlate; lia).
    fold caught. unfold ret at 1.
    unfold bind at 1.
    rewrite log_action_ok by (simpl; rewrite He; apply Hlate; lia).
    destruct (GUIStep.positive_float (ClickOnReference.wait self)) eqn:Hpos; simpl when.
    - unfold bind at 1.
      rewrite log_action_ok by (simpl; rewrite He; apply Hlate; lia).
      unfold bind at 1. rewrite (sleep_positive _ Hpos). unfold do at 1, modify at 1.
      rewrite log_action_ok by (simpl; rewrite He; apply Hlate; lia).
      eexists. eexists. split; [reflexivity|].
      split; [reflexivity|]. split; [reflexivity|].
      simpl. rewrite <- !app_assoc. reflexivity.
    - eexists. eexists. split; [reflexivity|].
      split; [reflexivity|]. split; [reflexivity|].
      simpl. rewrite <- !app_assoc. reflexivity. }
  destruct Hrun as (m' & evs & -> & He' & Hb' & Ht'). simpl.
  split; [reflexivity|]. split.
  - rewrite Ht'. apply elem_of_app. now left.
  - apply logged_later with (m := caught); eauto.
Qed.

(** C3, as the code has it.  [ClickOnReference.execute] never changes the
    context, and the only exception it lets out is the error of a failed
    write to the action log.  When the writes go through it returns,
    whatever the reference path, the threshold, the screen and the matcher
    (which may raise): a missing or unreadable reference file is logged as
    "Image not found: <path>" under ❌, and a peak below the threshold is
    logged with the peak value under ❌.  An exception raised in the [try],
    a failed write included, is caught there, printed and logged as
    "❌ Error in ClickOnReference: <message>", and the step returns when the
    writes from then on go through.  (The first [log_action] is outside the
    [try], and the [except] block and the fallback log again.) *)
Theorem click_on_reference_returns
    (self : ClickOnReference.t) (m : machine) :
  let path := ClickOnReference.reference_path self in
  let result := ClickOnReference.execute self m in
  bot (snd result) = bot m
  /\ (forall e, fst result = Raise e -> exists n, append_fails (env m) n = Some e)
  /\ (writable (env m) ->
      fst result = Ok tt
      /\ (imread (env m) path = None ->
          logged "❌" ("Image not found: " +:+ path) (snd result))
      /\ (forall template_width template_height s,
            imread (env m) path = Some (template_width, template_height) ->
            matching (env m) path = Ok s ->
            ~ (ClickOnReference.threshold self <= max_val s)%Q ->
            logged "❌"
              ("❌ No reference match found (confidence: "
               +:+ Py.format_fixed 4 (max_val s) +:+ ", needed: "
               +:+ float_str (env m) (ClickOnReference.threshold self) +:+ ")")
              (snd result)))
  /\ (forall err m2,
        append_fails (env m) (S (tick m)) = None ->
        ClickOnReference.attempt self
          (after_log ("🔍 Searching for reference image: " +:+ path) "🔍" m)
        = (Raise err, m2) ->
        (forall n, (tick m2 <= n)%nat -> append_fails (env m) n = None) ->
        fst result = Ok tt
        /\ Print ("❌ Error in ClickOnReference: " +:+ exn_msg err) ∈ trace (snd result)
        /\ logged "❌" ("❌ Error in ClickOnReference: " +:+ exn_msg err) (snd result)).
Proof.
  intros path result. subst result.
  split; [apply (framed_execute self m)|].
  split; [apply only_execute|].
  split.
  - intros Hw. split; [|split].
    + destruct (returns_execute self m Hw) as ([] & Hok). exact Hok.
    + intros Him. now apply execute_missing_file.
    + intros tw th s Him Hmatch Hth.
      now apply (execute_below_threshold self m Hw tw th s).
  - intros err m2. apply execute_catches.
Qed.

Lemma click_on_reference_returns_witness :
  let missing :=
    ClickOnReference.execute (ClickOnReference.init "1" "left" 1 100 100 0 (8#10))
      (Sample.machine_of Sample.calm) in
  let caught :=
    ClickOnReference.execute (ClickOnReference.init "1" "left" 1 100 100 0 (8#10))
      (Sample.machine_of Sample.hiccup) in
  (fst missing = Ok tt
   /\ Write "./runs/20250102120000/actions.log"
        "[❌] 2025-01-02 12:00:00 - Image not found: ./references/1.png"
      ∈ trace (snd missing))
  /\ (fst caught = Ok tt
      /\ Print "❌ Error in ClickOnReference: [Errno 28] No space left on device"
         ∈ trace (snd caught)).
Proof.
  intros missing caught. split.
  - destruct (click_on_reference_returns
                (ClickOnReference.init "1" "left" 1 100 100 0 (8#10))
                (Sample.machine_of Sample.calm)) as (_ & _ & Hwritable & _).
    destruct (Hwritable (fun n => eq_refl)) as (Hok & Hmissing & _).
    split; [exact Hok|].
    destruct (Hmissing eq_refl) as (n & Hin). exact Hin.
  - destruct (click_on_reference_returns
                (ClickOnReference.init "1" "left" 1 100 100 0 (8#10))
                (Sample.machine_of Sample.hiccup)) as (_ & _ & _ & Hcatch).
    destruct (Hcatch Sample.no_space
                (snd (ClickOnReference.attempt
                        (ClickOnReference.init "1" "left" 1 100 100 0 (8#10))
                        (after_log "🔍 Searching for reference image: ./references/1.png"
                           "🔍" (Sample.machine_of Sample.hiccup)))))
      as (Hok & Hprint & _).
    + reflexivity.
    + reflexivity.
    + intros n Hn. simpl in Hn. destruct n as [|[|[|[|n]]]]; [lia .. | reflexivity].
    + split; [exact Hok | exact Hprint].
Defined.

(** C3 as stated fails: when the write to the action log fails, the first
    [log_action] of [execute] (outside the [try]) raises to the caller. *)
Lemma click_on_reference_raises_on_full_disk :
  fst (ClickOnReference.execute
         (ClickOnReference.init "1" "left" 1 100 100 0 (8#10))
         (Sample.machine_of Sample.full_disk))
  = Raise Sample.no_space.
Proof. reflexivity. Qed.

(** ** Selectors *)

Lemma truthy_some (s : string) : s <> EmptyString -> Py.truthy (Some s) = true.
Proof. destruct s; [congruence | reflexivity]. Qed.

Lemma parse_selector_neither x_path css :
  Py.truthy x_path = false -> Py.truthy css = false ->
  BrowserStep.parse_selector x_path css
  = Raise (Exn "ValueError" "No selector provided").
Proof. intros Hx Hc. unfold BrowserStep.parse_selector. now rewrite Hx, Hc. Qed.

Lemma parse_selector_xpath x css :
  x <> EmptyString ->
  BrowserStep.parse_selector (Some x) css = Ok ("xpath=" +:+ x).
Proof.
  intros Hx. unfold BrowserStep.parse_selector. now rewrite (truthy_some x Hx).
Qed.

Lemma parse_selector_css x_path c :
  Py.truthy x_path = false -> c <> EmptyString ->
  BrowserStep.parse_selector x_path (Some c) = Ok ("css=" +:+ c).
Proof.
  intros Hx Hc. unfold BrowserStep.parse_selector.
  now rewrite Hx, (truthy_some c Hc).
Qed.

(** C6.  Construction of a selector step is a function of its arguments
    alone: it runs before any [execute] and has no context to touch.  With
    neither selector (both [None], or empty) each of the four constructors
    raises [ValueError]; with the XPath alone it yields the selector
    "xpath=" followed by the path, with the CSS query alone "css=" followed
    by the query. *)
Theorem selector_steps_are_checked_at_construction
    (x_path css : option string) (s : string) (value : option string)
    (wait : Z) (download_path : string) (download_name : option string) :
  s <> EmptyString ->
  (* neither *)
  (Py.truthy x_path = false -> Py.truthy css = false ->
     let error := Exn "ValueError" "No selector provided" in
     ClickElement.init x_path css wait = Raise error
     /\ FillInput.init x_path css value wait = Raise error
     /\ FillAndSubmit.init x_path css value wait = Raise error
     /\ ClickAndDownload.init x_path css wait download_path download_name
        = Raise error)
  (* the XPath alone *)
  /\ (Py.truthy css = false ->
      ClickElement.init (Some s) css wait
        = Ok (ClickElement.Make ("xpath=" +:+ s) wait)
      /\ FillInput.init (Some s) css value wait
        = Ok (FillInput.Make ("xpath=" +:+ s) value wait)
      /\ FillAndSubmit.init (Some s) css value wait
        = Ok (FillAndSubmit.Make ("xpath=" +:+ s) value wait)
      /\ ClickAndDownload.init (Some s) css wait download_path download_name
        = Ok (ClickAndDownload.Make ("xpath=" +:+ s) download_path download_name wait))
  (* the CSS query alone *)
  /\ (Py.truthy x_path = false ->
      ClickElement.init x_path (Some s) wait
        = Ok (ClickElement.Make ("css=" +:+ s) wait)
      /\ FillInput.init x_path (Some s) value wait
        = Ok (FillInput.Make ("css=" +:+ s) value wait)
      /\ FillAndSubmit.init x_path (Some s) value wait
        = Ok (FillAndSubmit.Make ("css=" +:+ s) value wait)
      /\ ClickAndDownload.init x_path (Some s) wait download_path download_name
        = Ok (ClickAndDownload.Make ("css=" +:+ s) download_path download_name wait)).
Proof.
  intros Hs. repeat split;
    unfold ClickElement.init, FillInput.init, FillAndSubmit.init,
      ClickAndDownload.init.
  1-4: now rewrite parse_selector_neither.
  1-4: now rewrite parse_selector_xpath.
  1-4: now rewrite parse_selector_css.
Qed.

Lemma selector_steps_are_checked_at_construction_witness :
  ClickElement.init None None 2000
    = Raise (Exn "ValueError" "No selector provided")
  /\ ClickElement.init (Some "//*[@id='wa']"%string) None 2000
    = Ok (ClickElement.Make "xpath=//*[@id='wa']" 2000)
  /\ ClickElement.init None (Some "#wa"%string) 2000
    = Ok (ClickElement.Make "css=#wa" 2000).
Proof.
  split; [|split].
  - apply (selector_steps_are_checked_at_construction
             None None "a" None 2000 "downloads" None ltac:(discriminate));
      reflexivity.
  - apply (selector_steps_are_checked_at_construction
             None None "//*[@id='wa']" None 2000 "downloads" None
             ltac:(discriminate)); reflexivity.
  - apply (selector_steps_are_checked_at_construction
             None None "#wa" None 2000 "downloads" None
             ltac:(discriminate)); reflexivity.
Defined.

(** ** The pages of the context *)

Lemma index_in_range {A} (l : list A) (i : Z) :
  - Z.of_nat (length l) <= i < Z.of_nat (length l) ->
  exists x, Py.index l i = Ok x /\ x ∈ l.
Proof.
  intros Hi. unfold Py.index.
  set (len := Z.of_nat (length l)) in *.
  set (j := if i <? 0 then len + i else i).
  assert (Hj : 0 <= j < len).
  { unfold j. destruct (Z.ltb_spec i 0); lia. }
  destruct (Z.ltb_spec j 0); [lia|].
  destruct (Z.leb_spec len j); [lia|]. simpl.
  destruct (l !! Z.to_nat j) as [x|] eqn:Hx.
  - exists x. split; [reflexivity|]. now apply list_elem_of_lookup_2 in Hx.
  - apply lookup_ge_None in Hx. unfold len in *. lia.
Qed.

Lemma index_out_of_range {A} (l : list A) (i : Z) :
  i < - Z.of_nat (length l) \/ Z.of_nat (length l) <= i ->
  Py.index l i = Raise (Exn "IndexError" "list index out of range").
Proof.
  intros Hi. unfold Py.index.
  set (len := Z.of_nat (length l)) in *.
  destruct (Z.ltb_spec i 0).
  - destruct (Z.ltb_spec (len + i) 0); [reflexivity | lia].
  - destruct (Z.ltb_spec i 0); [lia|].
    destruct (Z.leb_spec len i); [reflexivity | lia].
Qed.

Lemma index_last {A} (l : list A) (x : A) :
  Py.index (l ++ [x]) (-1) = Ok x.
Proof.
  unfold Py.index. rewrite length_app. simpl length.
  replace (Z.of_nat (length l + 1) + -1) with (Z.of_nat (length l)) by lia.
  change (-1 <? 0) with true. cbv iota.
  destruct (Z.ltb_spec (Z.of_nat (length l)) 0); [lia|].
  destruct (Z.leb_spec (Z.of_nat (length l + 1)) (Z.of_nat (length l))); [lia|].
  simpl. rewrite Nat2Z.id. now rewrite list_lookup_middle.
Qed.

Lemma apply_op_pages o c q : q ∈ pages c -> q ∈ pages (apply_op o c).
Proof.
  intros Hq. destruct o; simpl; try exact Hq.
  destruct (bool_decide _); [exact Hq|]. apply elem_of_app. now left.
Qed.

Lemma apply_ops_pages ops c q : q ∈ pages c -> q ∈ pages (apply_ops ops c).
Proof.
  revert c. induction ops as [|o ops IH]; intros c Hq; [exact Hq|].
  simpl. apply IH. now apply apply_op_pages.
Qed.

Lemma set_page_pages p c : p ∈ pages (BotContext.set_page p c).
Proof.
  simpl. destruct (bool_decide (p ∈ pages c)) eqn:E.
  - now apply bool_decide_eq_true in E.
  - apply elem_of_app. right. now apply list_elem_of_singleton.
Qed.

(** C9, as the code has it.  Once [set_page] has been called, the pages list
    holds that page and stays non-empty under every later operation of the
    context.  [get_page] with its default index -1 returns the last page;
    with an index in [-len .. len-1] it returns an entry of the list; with
    any other index it raises [IndexError] (Python's list indexing, which
    [get_page] does not guard). *)
Theorem pages_stay_non_empty
    (c : bot_context) (p : handle) (ops : list context_op) :
  let c' := apply_ops ops (BotContext.set_page p c) in
  let len := Z.of_nat (length (pages c')) in
  pages c' <> []
  /\ p ∈ pages c'
  /\ (exists q, BotContext.get_page (-1) c' = Ok (Some q) /\ last (pages c') = Some q)
  /\ (forall index, - len <= index < len ->
        exists q, BotContext.get_page index c' = Ok (Some q) /\ q ∈ pages c')
  /\ (forall index, index < - len \/ len <= index ->
        BotContext.get_page index c'
        = Raise (Exn "IndexError" "list index out of range")).
Proof.
  intros c' len.
  assert (Hp : p ∈ pages c') by apply apply_ops_pages, set_page_pages.
  assert (Hne : pages c' <> []).
  { intros E. rewrite E in Hp. now apply elem_of_nil in Hp. }
  split; [exact Hne|]. split; [exact Hp|].
  unfold BotContext.get_page, len. clearbody c'.
  destruct (pages c') as [|q0 rest] eqn:E; [congruence|]. clear Hne Hp.
  repeat split.
  - destruct (exists_last (l := q0 :: rest) ltac:(discriminate)) as (l' & q & Hl).
    exists q. rewrite Hl, index_last. split; [reflexivity|]. apply last_snoc.
  - intros index Hi. destruct (index_in_range (q0 :: rest) index Hi) as (q & -> & Hq).
    now exists q.
  - intros index Hi. now rewrite (index_out_of_range (q0 :: rest) index Hi).
Qed.

Lemma pages_stay_non_empty_witness :
  BotContext.get_page (-1)
    (apply_ops [StoreData "k" (Py.VInt 1); SetPage 9%nat; SetBrowser 1%nat]
       (BotContext.set_page 7%nat Sample.fresh_context))
  = Ok (Some 9%nat).
Proof.
  destruct (pages_stay_non_empty Sample.fresh_context 7%nat
              [StoreData "k" (Py.VInt 1); SetPage 9%nat; SetBrowser 1%nat])
    as (_ & _ & (q & Hq & Hlast) & _).
  rewrite Hq. vm_compute in Hlast. now rewrite Hlast.
Defined.

(** C9 as stated fails: with one page open, [get_page(1)] raises. *)
Lemma get_page_raises_out_of_range :
  BotContext.get_page 1 (BotContext.set_page 7%nat Sample.fresh_context)
  = Raise (Exn "IndexError" "list index out of range").
Proof. reflexivity. Qed.

(** ** Sleep *)

Lemma int_seconds_plus (d : Z) :
  Py.int (GUIStep.seconds d + 1) = Z.quot (d + 1000) 1000.
Proof.
  unfold Py.int, GUIStep.seconds. simpl. f_equal. lia.
Qed.

Lemma int_seconds_minus (d : Z) :
  Py.int (GUIStep.seconds d - 1) = Z.quot (d - 1000) 1000.
Proof.
  unfold Py.int, GUIStep.seconds. simpl. f_equal. lia.
Qed.

Lemma randint_in_range raw a b :
  a <= b -> exists r, Py.randint raw a b = Ok r /\ a <= r <= b.
Proof.
  intros Hab. unfold Py.randint.
  destruct (Z.ltb_spec b a); [lia|].
  eexists. split; [reflexivity|].
  pose proof (Z.mod_pos_bound raw (b - a + 1) ltac:(lia)). lia.
Qed.

Lemma sleep_then {A} (k : M A) (q : Q) (m : machine) :
  0 <= Qnum q -> framed k ->
  exists rest,
    trace (snd ((sleep q ;; k) m)) = trace m ++ TimeSleep q :: rest.
Proof.
  intros Hq Hk. unfold sleep.
  destruct (Z.ltb_spec (Qnum q) 0); [lia|].
  unfold bind, do, modify. now apply (framed_after k).
Qed.

Lemma bounds_differ (d : Z) :
  let lo := Z.max (Z.quot (d - 1000) 1000) 1 in
  let hi := Z.max (Z.quot (d + 1000) 1000) lo in
  lo <> hi -> 1000 <= d /\ hi = (d + 1000) / 1000 /\ 1 <= lo.
Proof.
  intros lo hi Hne.
  assert (Hge : 1000 <= d).
  { destruct (Z.lt_ge_cases d 1000) as [Hlt|]; [exfalso|assumption].
    apply Hne. unfold hi, lo.
    assert (Z.quot (d + 1000) 1000 <= 1).
    { destruct (Z.lt_ge_cases (d + 1000) 0).
      - replace (d + 1000) with (- (- (d + 1000))) by lia.
        rewrite Z.quot_opp_l by lia.
        pose proof (Z.quot_pos (- (d + 1000)) 1000 ltac:(lia) ltac:(lia)). lia.
      - rewrite Z.quot_div_nonneg by lia.
        pose proof (Z.div_lt_upper_bound (d + 1000) 1000 2 ltac:(lia) ltac:(lia)).
        lia. }
    lia. }
  split; [exact Hge|]. unfold hi, lo.
  rewrite !Z.quot_div_nonneg by lia.
  assert ((d - 1000) / 1000 < (d + 1000) / 1000).
  { replace (d + 1000) with (d - 1000 + 2 * 1000) by lia.
    rewrite Z.div_add by lia. lia. }
  assert (2 <= (d + 1000) / 1000) by (apply Z.div_le_lower_bound; lia).
  lia.
Qed.

Lemma sleep_randint_ok a b r m :
  Py.randint (entropy (env m) (tick m)) a b = Ok r ->
  Sleep.randint a b m = (Ok r, with_tick (S (tick m)) m).
Proof.
  intros Hr. unfold Sleep.randint, bind, next_tick, get_machine, lift. simpl.
  now rewrite Hr.
Qed.

(** C10.  For [Sleep(d, randomize=True)] the bounds of the jitter are taken
    from the duration in seconds, [d/1000]:
    [min = max(int(d/1000 - 1), 1)] and [max = max(int(d/1000 + 1), min)].
    When they differ the step sleeps [randint(min, max) / 1000] seconds,
    which is at most [(d/1000 + 1) / 1000] and less than the configured
    [d/1000]; when they coincide it sleeps the configured [d/1000]. *)
Theorem sleep_jitter_divides_seconds_by_a_thousand (d wait : Z) (m : machine) :
  let self := Sleep.init d true wait in
  let seconds := (inject_Z d / inject_Z 1000)%Q in
  let lo := Z.max (Py.int (seconds - 1)) 1 in
  let hi := Z.max (Py.int (seconds + 1)) lo in
  Sleep.min_duration self = lo
  /\ Sleep.max_duration self = hi
  /\ (lo <> hi ->
      exists r rest,
        Py.randint (entropy (env m) (tick m)) lo hi = Ok r
        /\ lo <= r <= hi
        /\ trace (snd (Sleep.execute self m))
           = trace m ++ TimeSleep (inject_Z r / inject_Z 1000) :: rest
        /\ (inject_Z r / inject_Z 1000 <= (seconds + 1) / inject_Z 1000)%Q
        /\ (inject_Z r / inject_Z 1000 < seconds)%Q)
  /\ (lo = hi -> 0 <= d ->
      exists rest,
        trace (snd (Sleep.execute self m)) = trace m ++ TimeSleep seconds :: rest).
Proof.
  intros self seconds lo hi.
  split; [reflexivity|]. split; [reflexivity|].
  assert (Hk : forall actual : Q, framed
            (BotContext.log_action
               ("Slept for " +:+ Py.format_fixed 0 (actual * inject_Z 1000) +:+ "ms") "⏳" ;;
             when (GUIStep.positive_float (Sleep.wait self))
               (sleep (Sleep.wait self) ;;
                ms <- str_float (Sleep.wait self * inject_Z 1000) ;;
                BotContext.log_action ("Waited " +:+ ms +:+ "ms") "⏳"))) by (intros; auto 10 with framed).
  split.
  - intros Hne.
    assert (Hlohi : lo <= hi) by (unfold hi; lia).
    destruct (randint_in_range (entropy (env m) (tick m)) lo hi Hlohi) as (r & Hr & Hin).
    exists r.
    assert (Hex : exists rest,
               trace (snd (Sleep.execute self m))
               = trace m ++ TimeSleep (inject_Z r / inject_Z 1000) :: rest).
    { unfold Sleep.execute. change (Sleep.randomize self) with true. cbv iota.
      change (Sleep.min_duration self) with lo. change (Sleep.max_duration self) with hi.
      destruct (Z.eqb_spec lo hi) as [|_]; [contradiction|]. cbv [negb].
      unfold bind at 1. unfold bind at 1. rewrite (sleep_randint_ok _ _ _ _ Hr).
      unfold ret at 1.
      destruct (sleep_then (BotContext.log_action
               ("Slept for " +:+ Py.format_fixed 0 ((inject_Z r / inject_Z 1000) * inject_Z 1000) +:+ "ms") "⏳" ;;
             when (GUIStep.positive_float (Sleep.wait self))
               (sleep (Sleep.wait self) ;;
                ms <- str_float (Sleep.wait self * inject_Z 1000) ;;
                BotContext.log_action ("Waited " +:+ ms +:+ "ms") "⏳")) (inject_Z r / inject_Z 1000) (with_tick (S (tick m)) m))
        as (rest & Hrest); [simpl; unfold lo in Hin; lia | apply Hk |].
      exists rest. exact Hrest. }
    destruct Hex as (rest & Hrest). exists rest.
    split; [exact Hr|]. split; [exact Hin|]. split; [exact Hrest|].
    clear Hrest Hr Hk. subst hi lo seconds. fold (GUIStep.seconds d) in *.
    rewrite int_seconds_plus, int_seconds_minus in *.
    destruct (bounds_differ d Hne) as (Hd & Hhi & Hlo). rewrite Hhi in Hin.
    split.
    + unfold Qle, GUIStep.seconds. simpl. destruct Hin as [_ Hr]. clear - Hr Hd.
      pose proof (Z.mul_div_le (d + 1000) 1000 ltac:(lia)). lia.
    + unfold Qlt, GUIStep.seconds. simpl. destruct Hin as [_ Hr]. clear - Hr Hd.
      pose proof (Z.mul_div_le (d + 1000) 1000 ltac:(lia)). lia.
  - intros Heq Hd.
    unfold Sleep.execute. change (Sleep.randomize self) with true. cbv iota.
    change (Sleep.min_duration self) with lo. change (Sleep.max_duration self) with hi.
    destruct (Z.eqb_spec lo hi) as [_|]; [|contradiction]. cbv [negb].
    unfold bind at 1. unfold ret at 1.
    change (Sleep.duration self) with seconds.
    apply sleep_then; [unfold seconds; simpl; lia | apply Hk].
Qed.

Lemma sleep_jitter_divides_seconds_by_a_thousand_witness :
  exists r rest,
    2 <= r <= 4
    /\ trace (snd (Sleep.execute (Sleep.init 3000 true 0)
                     (Sample.machine_of Sample.calm)))
       = TimeSleep (inject_Z r / inject_Z 1000) :: rest.
Proof.
  destruct (sleep_jitter_divides_seconds_by_a_thousand 3000 0
              (Sample.machine_of Sample.calm))
    as (_ & _ & Hdiffer & _).
  destruct (Hdiffer ltac:(discriminate)) as (r & rest & _ & Hr & Htrace & _).
  exists r, rest. split; [exact Hr | exact Htrace].
Defined.

(** ** Dialogs *)

Lemma framed_current_page attr : framed (BrowserStep.current_page attr).
Proof.
  unfold BrowserStep.current_page. apply framed_bind; [apply framed_get_machine|].
  intros m. destruct (page (bot m)); auto with framed.
Qed.

Lemma framed_trailing_wait wait : framed (BrowserStep.trailing_wait wait).
Proof.
  unfold BrowserStep.trailing_wait, BrowserStep.wait_for_timeout.
  apply framed_when. auto 10 using framed_current_page with framed.
Qed.

Lemma attr_accept accept wait :
  Py.getattr (HandleDialog.instance_dict (HandleDialog.init accept wait))
    HandleDialog.class_dict "accept" = Ok (Py.VBool accept).
Proof.
  unfold Py.getattr, HandleDialog.init. simpl.
  rewrite lookup_insert_ne by discriminate. now rewrite lookup_insert_eq.
Qed.

Lemma attr_dismiss accept wait :
  Py.getattr (HandleDialog.instance_dict (HandleDialog.init accept wait))
    HandleDialog.class_dict "dismiss" = Ok (Py.VFunc Py.dialog_dismiss).
Proof.
  unfold Py.getattr, HandleDialog.init, HandleDialog.class_dict. simpl.
  rewrite lookup_insert_ne by discriminate.
  rewrite lookup_insert_ne by discriminate. rewrite lookup_empty.
  rewrite lookup_insert_ne by discriminate. now rewrite lookup_insert_eq.
Qed.

Lemma attr_wait accept wait :
  Py.getattr (HandleDialog.instance_dict (HandleDialog.init accept wait))
    HandleDialog.class_dict "wait" = Ok (Py.VInt wait).
Proof.
  unfold Py.getattr, HandleDialog.init. simpl. now rewrite lookup_insert_eq.
Qed.

Lemma bind_first_event {A B} (c c' : M A) (k : A -> M B) (e : event) (m : machine) :
  framed c' -> (forall a, framed (k a)) -> c m = c' (emit e m) ->
  exists rest, trace (snd (bind c k m)) = trace m ++ e :: rest.
Proof.
  intros Hc Hk Heq.
  assert (Hf : framed (bind c' k)) by now apply framed_bind.
  destruct (Hf (emit e m)) as (_ & _ & evs & Ht & _).
  exists evs. unfold bind in *. rewrite Heq. rewrite Ht. simpl.
  now rewrite <- app_assoc.
Qed.

(** C8 on the code.  [HandleDialog.__init__] stores the flag in the
    attribute [accept], which hides the static method of that name on the
    instance.  [execute] therefore registers, for [accept=True], the value
    [True] itself as the dialog handler: it is not callable, and calling it
    when a dialog opens raises [TypeError] instead of accepting the dialog.
    For [accept=False] the static method [dismiss] is registered and
    dismisses the dialog. *)
Theorem handle_dialog_accept_registers_a_bool
    (accept : bool) (wait : Z) (m : machine) (p : handle) :
  page (bot m) = Some p ->
  let handler := if accept then Py.VBool true else Py.VFunc Py.dialog_dismiss in
  (exists rest,
     trace (snd (HandleDialog.execute (HandleDialog.init accept wait) m))
     = trace m ++ PageOn p "dialog" handler :: rest)
  /\ (accept = true ->
      Py.is_callable handler = false
      /\ HandleDialog.call_handler handler
         = Raise (Exn "TypeError" "'bool' object is not callable"))
  /\ (accept = false ->
      HandleDialog.call_handler handler = Ok HandleDialog.Dismissed).
Proof.
  intros Hp handler. split; [|split; intros ->; simpl; auto].
  assert (Hon : forall h, HandleDialog.page_on "dialog" h m
                          = (Ok tt, emit (PageOn p "dialog" h) m)).
  { intros h. unfold HandleDialog.page_on, BrowserStep.current_page, bind, get_machine.
    now rewrite Hp. }
  unfold HandleDialog.execute, HandleDialog.attr.
  unfold bind at 1, lift at 1. rewrite attr_accept. cbv beta iota.
  assert (Hk : forall u : unit, framed
            (w <- lift (Py.getattr
                          (HandleDialog.instance_dict (HandleDialog.init accept wait))
                          HandleDialog.class_dict "wait") ;;
             match w with
             | Py.VInt wait => BrowserStep.trailing_wait wait
             | Py.VBool b => BrowserStep.trailing_wait (Z.b2z b)
             | Py.VFunc _ => raise (Exn "TypeError" "'>' not supported between instances of 'function' and 'int'")
             end)).
  { intros _. apply framed_bind; [apply framed_lift|].
    intros [b|z|f]; auto using framed_trailing_wait with framed. }
  destruct accept; simpl Py.value_truthy; cbv iota.
  - eapply bind_first_event with
      (c' := BotContext.log_action "Set up dialog handler to accept dialogs" "✅");
      [auto with framed | exact Hk |].
    unfold bind at 1, lift at 1.
    unfold bind at 1. now rewrite Hon.
  - eapply bind_first_event with
      (c' := BotContext.log_action "Set up dialog handler to dismiss dialogs" "❌");
      [auto with framed | exact Hk |].
    unfold bind at 1, lift at 1. rewrite attr_dismiss.
    unfold bind at 1. now rewrite Hon.
Qed.

Lemma handle_dialog_accept_registers_a_bool_witness :
  exists rest,
    trace (snd (HandleDialog.execute (HandleDialog.init true 2000)
                  (Sample.on_page Sample.calm)))
    = PageOn 7%nat "dialog" (Py.VBool true) :: rest.
Proof.
  destruct (handle_dialog_accept_registers_a_bool true 2000
              (Sample.on_page Sample.calm) 7%nat eq_refl) as ((rest & Hrest) & _).
  exists rest. exact Hrest.
Defined.

(** ** Release of the browser and the driver *)

Lemma framed_quiet {A} (c : M A) : framed c -> quiet c.
Proof.
  intros Hc m. destruct (Hc m) as (_ & Hb & evs & Ht & Hr).
  simpl. rewrite Hb, Ht, releases_app, Hr. now rewrite app_nil_r.
Qed.

Lemma quiet_bind {A B} (c : M A) (k : A -> M B) :
  quiet c -> (forall a, quiet (k a)) -> quiet (bind c k).
Proof.
  intros Hc Hk m. specialize (Hc m). unfold bind.
  destruct (c m) as [[a|e] m1]; simpl in *; [|exact Hc].
  specialize (Hk a m1). simpl in Hk.
  destruct Hc as (H1 & H2 & H3), Hk as (H1' & H2' & H3').
  repeat split; congruence.
Qed.

Lemma quiet_try {A} (c : M A) (h : exn -> M A) :
  quiet c -> (forall e, quiet (h e)) -> quiet (try_except c h).
Proof.
  intros Hc Hk m. specialize (Hc m). unfold try_except.
  destruct (c m) as [[a|e] m1]; simpl in *; [exact Hc|].
  specialize (Hk e m1). simpl in Hk.
  destruct Hc as (H1 & H2 & H3), Hk as (H1' & H2' & H3').
  repeat split; congruence.
Qed.

Lemma quiet_run (fs : list Step.t) :
  Forall keeps_resources fs -> quiet (SageBot.run fs).
Proof.
  induction 1 as [|f fs Hf _ IH]; simpl.
  - apply framed_quiet, framed_ret.
  - apply quiet_bind.
    + apply quiet_try.
      * apply quiet_bind; [exact Hf|]. intros _. apply framed_quiet, framed_ret.
      * intros e. apply framed_quiet. auto with framed.
    + intros [|]; [exact IH | apply framed_quiet, framed_ret].
Qed.

Lemma framed_new_context b st : framed (SageBot.new_context b st).
Proof.
  unfold SageBot.new_context. apply framed_bind; [apply framed_get_machine|].
  intros m. destruct st as [path|]; [destruct (disk m !! path)|]; auto 10 with framed.
Qed.

Lemma startup_handles (self : SageBot.t) (m m0 : machine) :
  SageBot.startup self m = (Ok tt, m0) ->
  browser (bot m0) = Some (S (fresh m))
  /\ playwright (bot m0) = Some (fresh m)
  /\ releases (trace m0) = releases (trace m).
Proof.
  unfold SageBot.startup. unfold bind at 1.
  destruct (append_fails (env m) (S (tick m))) as [e|] eqn:Hw.
  { rewrite (log_action_fail _ _ _ e Hw). discriminate. }
  rewrite (log_action_ok _ _ _ Hw).
  unfold bind at 1, new_handle at 1. unfold bind at 1, do at 1, modify at 1.
  unfold bind at 1, new_handle at 1. unfold bind at 1, do at 1, modify at 1.
  unfold bind at 1.
  match goal with
  | |- (let (_, _) := ?c ?mm in _) = _ -> _ =>
      assert (Hc : framed c);
      [ destruct (Py.truthy (SageBot.state_name self));
        auto 10 using framed_new_context with framed
      | destruct (Hc mm) as (_ & _ & evs & Ht & Hr);
        destruct (c mm) as [[a|e] m'] ]
  end; [|discriminate].
  unfold_monad. simpl in *. intros Heq. injection Heq as <-. simpl.
  split; [reflexivity|]. split; [reflexivity|].
  rewrite Ht, !releases_app, Hr. simpl. now rewrite !app_nil_r.
Qed.

Lemma teardown_releases (m : machine) (b p : handle) :
  browser (bot m) = Some b -> playwright (bot m) = Some p ->
  releases (trace (snd (SageBot.teardown m)))
  = releases (trace m) ++ [BrowserClose b; PlaywrightStop p].
Proof.
  intros Hb Hp. unfold SageBot.teardown, SageBot.browser_close, SageBot.playwright_stop.
  unfold bind at 1. unfold bind at 1, get_machine at 1. rewrite Hb.
  unfold do at 1, modify at 1.
  unfold bind at 1. unfold bind at 1, get_machine at 1.
  change (playwright (bot (emit (BrowserClose b) m))) with (playwright (bot m)). rewrite Hp.
  unfold do at 1, modify at 1.
  destruct (framed_log_action "Bot execution completed" "🏁"
              (emit (PlaywrightStop p) (emit (BrowserClose b) m)))
    as (_ & _ & evs & Ht & Hr).
  rewrite Ht, !releases_app, Hr. simpl. rewrite !releases_app. simpl.
  now rewrite app_nil_r, <- app_assoc.
Qed.

(** X1.  When [execute] returns, the browser was closed once and the driver
    stopped once, in that order, whether every step returned or one raised
    and ended the loop: provided no step closes the browser or stops the
    driver itself, or replaces their handles in the context. *)
Theorem execute_releases_once (self : SageBot.t) (m m' : machine) :
  Forall keeps_resources (SageBot.functions self) ->
  SageBot.execute self m = (Ok tt, m') ->
  releases (trace m')
  = releases (trace m) ++ [BrowserClose (S (fresh m)); PlaywrightStop (fresh m)].
Proof.
  intros Hsteps. unfold SageBot.execute. unfold bind at 1.
  destruct (SageBot.startup self m) as [[[]|e] m0] eqn:Hstart; [|discriminate].
  destruct (startup_handles self m m0 Hstart) as (Hb & Hp & Hr0).
  unfold bind at 1.
  pose proof (quiet_run _ Hsteps m0) as Hq. simpl in Hq. revert Hq.
  destruct (SageBot.run (SageBot.functions self) m0) as [[[]|e] m1];
    intros (Hb1 & Hp1 & Hr1); [|discriminate].
  simpl in *. intros Heq.
  rewrite <- Hb1 in Hb. rewrite <- Hp1 in Hp.
  pose proof (teardown_releases m1 (S (fresh m)) (fresh m) Hb Hp) as Ht.
  rewrite Heq in Ht. simpl in Ht. now rewrite Ht, Hr1, Hr0.
Qed.

Lemma framed_sleep_execute self : framed (Sleep.execute self).
Proof.
  unfold Sleep.execute, Sleep.randint. apply framed_bind.
  - destruct (Sleep.randomize self); [|auto with framed].
    destruct (negb _); auto 10 with framed.
  - intros actual. auto 10 with framed.
Qed.

Lemma framed_mouse_move_execute self : framed (MouseMove.execute self).
Proof.
  unfold MouseMove.execute, GUIStep.get_screen_size. auto 20 with framed.
Qed.

Lemma framed_drag_to_execute self : framed (DragTo.execute self).
Proof.
  unfold DragTo.execute, GUIStep.get_screen_size. auto 20 with framed.
Qed.

Lemma execute_releases_once_witness :
  releases
    (trace (snd (SageBot.execute
                   (SageBot.Make [Sample.sleeps; Sample.moves] false None)
                   (Sample.machine_of Sample.calm))))
  = [BrowserClose 1%nat; PlaywrightStop 0%nat].
Proof.
  apply (execute_releases_once
           (SageBot.Make [Sample.sleeps; Sample.moves] false None)
           (Sample.machine_of Sample.calm)).
  - constructor; [|constructor; [|constructor]].
    + apply framed_quiet, (framed_sleep_execute (Sleep.init 3000 true 0)).
    + apply framed_quiet, (framed_mouse_move_execute (MouseMove.init (1#2) (1#3) 500 0)).
  - assert (Hok : fst (SageBot.execute
                         (SageBot.Make [Sample.sleeps; Sample.moves] false None)
                         (Sample.machine_of Sample.calm)) = Ok tt)
      by (vm_compute; reflexivity).
    destruct (SageBot.execute _ _) as [o m']. simpl in *. now subst o.
Defined.

(** C2 on the code.  [execute] closes the browser and stops the driver
    after the loop, with nothing like [finally] around what comes before:
    when an exception leaves [execute], neither happens.  Two runs: the bot
    is given the name of a state file that does not exist, so that
    [browser.new_context] raises after the launch; and a step raises while
    the disk is full, so that logging the failure raises inside the
    [except] block.  In both, [execute] raises and the trace holds the
    launch and no release. *)
Theorem execute_leaks_the_browser_when_it_raises :
  let missing_state :=
    SageBot.execute (SageBot.Make [Sample.sleeps] true (Some "state_test"%string))
      (Sample.machine_of Sample.calm) in
  let failing_log :=
    SageBot.execute (SageBot.Make [Sample.clicks; Sample.moves] false None)
      (Sample.machine_of Sample.fills_up) in
  (fst missing_state
   = Raise (Exn "FileNotFoundError"
              "[Errno 2] No such file or directory: './states/state_test.json'")
   /\ Launch 0%nat 1%nat true ∈ trace (snd missing_state)
   /\ releases (trace (snd missing_state)) = [])
  /\ (fst failing_log = Raise Sample.no_space
      /\ Launch 0%nat 1%nat false ∈ trace (snd failing_log)
      /\ releases (trace (snd failing_log)) = []).
Proof.
  repeat split; try reflexivity.
  - vm_compute. do 3 right. left.
  - vm_compute. do 3 right. left.
Qed.

(** ** Further properties of the steps *)

(** X2.  When both selectors are given, [parse_selector] does not raise:
    the XPath wins. *)
Theorem parse_selector_prefers_xpath (x c : string) :
  x <> EmptyString ->
  BrowserStep.parse_selector (Some x) (Some c) = Ok ("xpath=" +:+ x).
Proof. intros Hx. now apply parse_selector_xpath. Qed.

Lemma parse_selector_prefers_xpath_witness :
  BrowserStep.parse_selector (Some "//a"%string) (Some "a.link"%string)
  = Ok "xpath=//a"%string.
Proof. apply (parse_selector_prefers_xpath "//a" "a.link"). discriminate. Defined.

(** X3.  Lines appear in the log file in the order [log_action] was
    called: two calls in a row append their two lines, in that order, after
    what the file held. *)
Theorem log_lines_are_appended_in_call_order
    (action1 tag1 action2 tag2 : string) (m : machine) :
  writable (env m) ->
  let file := BotContext.log_file (bot m) in
  let before := default [] (disk m !! file) in
  exists stamp1 stamp2 m',
    (BotContext.log_action action1 tag1 ;; BotContext.log_action action2 tag2) m
    = (Ok tt, m')
    /\ disk m' !! file
       = Some (before ++ [BotContext.log_line tag1 stamp1 action1;
                          BotContext.log_line tag2 stamp2 action2]).
Proof.
  intros Hw file before.
  exists (strftime_readable (now (env m) (tick m))),
         (strftime_readable (now (env m) (S (S (tick m))))).
  eexists. unfold bind. rewrite (log_action_writable _ _ _ Hw).
  rewrite (log_action_writable _ _ (after_log action1 tag1 m) Hw).
  split; [reflexivity|].
  unfold after_log. simpl. fold file.
  rewrite lookup_insert_eq. rewrite lookup_insert_eq. simpl.
  now rewrite <- app_assoc.
Qed.

Lemma log_lines_are_appended_in_call_order_witness :
  exists stamp1 stamp2 m',
    (BotContext.log_action "first" "👌" ;; BotContext.log_action "second" "👌")
      (Sample.machine_of Sample.calm) = (Ok tt, m')
    /\ disk m' !! "./runs/20250102120000/actions.log"
       = Some [BotContext.log_line "👌" stamp1 "first";
               BotContext.log_line "👌" stamp2 "second"].
Proof.
  exact (log_lines_are_appended_in_call_order "first" "👌" "second" "👌"
           (Sample.machine_of Sample.calm) (fun n => eq_refl)).
Defined.

(** X4.  When no step raises, the loop of [execute] runs every step, in
    order, each on the state the one before left. *)
Theorem run_executes_every_step_when_none_raises
    (functions : list Step.t) (m0 m1 : machine) :
  all_return functions m0 m1 ->
  SageBot.run functions m0 = (Ok tt, m1).
Proof.
  intros H. rewrite <- (app_nil_r functions).
  now rewrite (run_all_return _ [] _ _ H).
Qed.

Lemma run_executes_every_step_when_none_raises_witness :
  let m0 := Sample.machine_of Sample.calm in
  let m1 := snd (Step.execute Sample.sleeps m0) in
  let m2 := snd (Step.execute Sample.moves m1) in
  SageBot.run [Sample.sleeps; Sample.moves] m0 = (Ok tt, m2).
Proof.
  intros m0 m1 m2.
  apply (run_executes_every_step_when_none_raises [Sample.sleeps; Sample.moves] m0 m2).
  apply all_return_cons with (m1 := m1); [reflexivity|].
  apply all_return_cons with (m1 := m2); [reflexivity|]. constructor.
Defined.

(** X5.  Without jitter, [Sleep] sleeps the configured duration. *)
Theorem sleep_without_jitter_sleeps_the_duration (d wait : Z) (m : machine) :
  0 <= d ->
  exists rest,
    trace (snd (Sleep.execute (Sleep.init d false wait) m))
    = trace m ++ TimeSleep (inject_Z d / inject_Z 1000) :: rest.
Proof.
  intros Hd. unfold Sleep.execute. simpl Sleep.randomize. cbv iota.
  unfold bind at 1, ret at 1.
  apply sleep_then; [simpl; lia | auto 10 with framed].
Qed.

Lemma sleep_without_jitter_sleeps_the_duration_witness :
  exists rest,
    trace (snd (Sleep.execute (Sleep.init 3000 false 0) (Sample.machine_of Sample.calm)))
    = TimeSleep (inject_Z 3000 / inject_Z 1000) :: rest.
Proof.
  exact (sleep_without_jitter_sleeps_the_duration 3000 0
           (Sample.machine_of Sample.calm) ltac:(lia)).
Defined.

(** ** No match, no click *)

Lemma hands_off_ret {A} (a : A) : hands_off (ret a).
Proof. now intros m. Qed.

Lemma hands_off_raise {A} e : hands_off (@raise A e).
Proof. now intros m. Qed.

Lemma hands_off_lift {A} (o : outcome A) : hands_off (lift o).
Proof. now intros m. Qed.

Lemma hands_off_do e : is_pointer e = false -> hands_off (do e).
Proof.
  intros He m. simpl. unfold pointer_events. rewrite List.filter_app. simpl.
  rewrite He. now rewrite app_nil_r.
Qed.

Lemma hands_off_print line : hands_off (print line).
Proof. now apply hands_off_do. Qed.

Lemma hands_off_bind {A B} (c : M A) (k : A -> M B) :
  hands_off c -> (forall a, hands_off (k a)) -> hands_off (bind c k).
Proof.
  intros Hc Hk m. specialize (Hc m). unfold bind.
  destruct (c m) as [[a|e] m1]; simpl in *; [|exact Hc].
  now rewrite (Hk a m1).
Qed.

Lemma hands_off_try {A} (c : M A) (h : exn -> M A) :
  hands_off c -> (forall e, hands_off (h e)) -> hands_off (try_except c h).
Proof.
  intros Hc Hh m. specialize (Hc m). unfold try_except.
  destruct (c m) as [[a|e] m1]; simpl in *; [exact Hc|].
  now rewrite (Hh e m1).
Qed.

Lemma hands_off_when b c : hands_off c -> hands_off (when b c).
Proof. destruct b; simpl; auto using hands_off_ret. Qed.

Lemma hands_off_sleep q : hands_off (sleep q).
Proof.
  unfold sleep. destruct (Qnum q <? 0); auto using hands_off_raise, hands_off_do.
Qed.

Lemma hands_off_log_action a t : hands_off (BotContext.log_action a t).
Proof.
  intros m. destruct (append_fails (env m) (S (tick m))) as [e|] eqn:Hw.
  - rewrite (log_action_fail _ _ _ e Hw). simpl. unfold pointer_events.
    rewrite List.filter_app. simpl. now rewrite app_nil_r.
  - rewrite (log_action_ok _ _ _ Hw). simpl. unfold pointer_events.
    rewrite List.filter_app. simpl. now rewrite app_nil_r.
Qed.

Lemma hands_off_str_float x : hands_off (str_float x).
Proof. now intros m. Qed.

Create HintDb hands_off.
#[export] Hint Resolve hands_off_ret hands_off_raise hands_off_lift hands_off_do
  hands_off_print hands_off_bind hands_off_try hands_off_when hands_off_sleep
  hands_off_log_action hands_off_str_float : hands_off.
#[export] Hint Extern 1 (is_pointer _ = false) => reflexivity : hands_off.

Lemma lift_ok_hands_off {A B} (a : A) (k : A -> M B) :
  hands_off (k a) -> hands_off (bind (lift (Ok a)) k).
Proof. intros Hk m. exact (Hk m). Qed.

Lemma attempt_not_found self m :
  not_found self (env m) ->
  pointer_events (trace (snd (ClickOnReference.attempt self m)))
  = pointer_events (trace m).
Proof.
  intros Hnf. unfold ClickOnReference.attempt. unfold bind at 1, get_machine at 1.
  remember (env m) as o eqn:Ho. clear Ho.
  destruct Hnf as [Him | [(size & e & Him & Hmatch) | (size & s & Him & Hmatch & Hth)]];
    rewrite Him; [| destruct size as [tw th] ..].
  - revert m.
    match goal with |- forall m, pointer_events (trace (snd (?c m))) = _ =>
      change (hands_off c) end.
    auto 20 with hands_off.
  - rewrite Hmatch. revert m.
    match goal with |- forall m, pointer_events (trace (snd (?c m))) = _ =>
      change (hands_off c) end.
    apply hands_off_bind; [auto with hands_off|]. intros _.
    intros m. reflexivity.
  - rewrite Hmatch.
    assert (Hb : Qle_bool (ClickOnReference.threshold self) (max_val s) = false).
    { destruct (Qle_bool _ _) eqn:E; [|reflexivity].
      apply Qle_bool_iff in E. contradiction. }
    revert m.
    match goal with |- forall m, pointer_events (trace (snd (?c m))) = _ =>
      change (hands_off c) end.
    apply hands_off_bind; [auto with hands_off|]. intros _.
    apply lift_ok_hands_off.
    apply hands_off_bind; [auto with hands_off|]. intros needed.
    apply hands_off_bind; [auto with hands_off|]. intros _.
    rewrite Hb. auto 20 with hands_off.
Qed.

Lemma try_then_hands_off {A B} (c : M A) (h : exn -> M A) (k : A -> M B) m :
  pointer_events (trace (snd (c m))) = pointer_events (trace m) ->
  (forall e, hands_off (h e)) -> (forall a, hands_off (k a)) ->
  pointer_events (trace (snd ((x <- try_except c h ;; k x) m)))
  = pointer_events (trace m).
Proof.
  intros Hc Hh Hk. unfold bind, try_except.
  destruct (c m) as [[a|e] m1]; simpl in Hc.
  - now rewrite (Hk a m1).
  - pose proof (Hh e m1) as H1.
    destruct (h e m1) as [[a|e'] m2]; simpl in *.
    + rewrite (Hk a m2). congruence.
    + congruence.
Qed.

(** X6.  When no match is accepted (the reference file is missing, the
    matcher raises, or the peak is below the threshold),
    [ClickOnReference.execute] neither moves the pointer nor clicks. *)
Theorem not_found_leaves_the_pointer_alone (self : ClickOnReference.t) (m : machine) :
  not_found self (env m) ->
  pointer_events (trace (snd (ClickOnReference.execute self m)))
  = pointer_events (trace m).
Proof.
  intros Hnf. unfold ClickOnReference.execute. unfold bind at 1.
  pose proof (hands_off_log_action
                ("🔍 Searching for reference image: " +:+ ClickOnReference.reference_path self)
                "🔍" m) as H1.
  destruct (framed_log_action
                ("🔍 Searching for reference image: " +:+ ClickOnReference.reference_path self)
                "🔍" m) as (He & _).
  revert H1 He.
  destruct (BotContext.log_action _ _ m) as [[[]|e] m1]; simpl; intros H1 He;
    [|exact H1].
  rewrite <- H1. rewrite <- He in Hnf.
  apply try_then_hands_off.
  - now apply attempt_not_found.
  - intros e. auto 10 with hands_off.
  - intros [|]; auto 20 with hands_off.
Qed.

Lemma not_found_leaves_the_pointer_alone_witness :
  pointer_events
    (trace (snd (ClickOnReference.execute
                   (ClickOnReference.init "1" "left" 1 100 100 0 (8#10))
                   (Sample.machine_of Sample.calm))))
  = [].
Proof.
  apply (not_found_leaves_the_pointer_alone
           (ClickOnReference.init "1" "left" 1 100 100 0 (8#10))
           (Sample.machine_of Sample.calm)).
  left. reflexivity.
Defined.

(** ** The data and the pages of the context *)



Lemma set_page_known p c :
  p ∈ pages c -> pages (BotContext.set_page p c) = pages c.
Proof. intros Hp. simpl. now rewrite bool_decide_eq_true_2. Qed.

Lemma set_page_new p c :
  p ∉ pages c -> pages (BotContext.set_page p c) = pages c ++ [p].
Proof. intros Hp. simpl. now rewrite bool_decide_eq_false_2. Qed.

Lemma apply_op_NoDup o c : NoDup (pages c) -> NoDup (pages (apply_op o c)).
Proof.
  intros Hc. destruct o; simpl; try exact Hc.
  destruct (bool_decide (p ∈ pages c)) eqn:E; [exact Hc|].
  apply bool_decide_eq_false in E.
  apply NoDup_app. repeat split; [exact Hc | | apply NoDup_singleton].
  intros x Hx Hx'. apply list_elem_of_singleton in Hx'. now subst.
Qed.





(** ** The orchestrator ends every run *)

Lemma run_returns (functions : list Step.t) (m : machine) :
  writable (env m) -> Forall keeps_env functions ->
  exists m', SageBot.run functions m = (Ok tt, m') /\ env m' = env m.
Proof.
  intros Hw Hfs. revert m Hw.
  induction Hfs as [|f fs Hf _ IH]; intros m Hw; [now exists m|].
  simpl. unfold bind at 1, try_except, bind at 1.
  specialize (Hf m). destruct (Step.execute f m) as [[[]|e] m1]; simpl in Hf.
  - unfold ret at 1. destruct (IH m1) as (m' & Hrun & He); [now rewrite Hf|].
    exists m'. split; [exact Hrun | congruence].
  - unfold bind at 1. rewrite log_action_writable by now rewrite Hf.
    unfold ret. eexists. split; [reflexivity|]. exact Hf.
Qed.


Lemma framed_steady {A} (c : M A) : framed c -> steady c.
Proof. intros Hc m. apply (Hc m). Qed.

Lemma steady_bind {A B} (c : M A) (k : A -> M B) :
  steady c -> (forall a, steady (k a)) -> steady (bind c k).
Proof.
  intros Hc Hk m. specialize (Hc m). unfold bind.
  destruct (c m) as [[a|e] m1]; simpl in *; [|exact Hc].
  now rewrite (Hk a m1).
Qed.

Lemma steady_try {A} (c : M A) (h : exn -> M A) :
  steady c -> (forall e, steady (h e)) -> steady (try_except c h).
Proof.
  intros Hc Hh m. specialize (Hc m). unfold try_except.
  destruct (c m) as [[a|e] m1]; simpl in *; [exact Hc|].
  now rewrite (Hh e m1).
Qed.

Lemma steady_modify_bot (f : machine -> bot_context) :
  steady (modify (fun m => with_bot (f m) m)).
Proof. now intros m. Qed.

Lemma steady_ret {A} (a : A) : steady (ret a).
Proof. now intros m. Qed.

Lemma steady_click_element self : steady (ClickElement.execute self).
Proof.
  unfold ClickElement.execute.
  apply steady_bind; [apply framed_steady, framed_current_page|]. intros p.
  apply steady_bind; [apply framed_steady, framed_new_handle|]. intros element.
  apply steady_bind; [|intros _; apply framed_steady, framed_trailing_wait].
  apply steady_bind; [apply steady_modify_bot|]. intros _.
  apply framed_steady. unfold BrowserStep.acting.
  apply framed_bind.
  - apply framed_bind; [apply framed_get_machine|]. intros m.
    destruct (dom (env m) _); auto with framed.
  - intros _. auto with framed.
Qed.


Lemma new_context_returns b st m :
  (forall path, st = Some path -> is_Some (disk m !! path)) ->
  SageBot.new_context b st m
  = (Ok (fresh m), emit (NewContext b (fresh m) st) (with_fresh (S (fresh m)) m)).
Proof.
  intros Hst. unfold SageBot.new_context. unfold bind at 1, get_machine at 1.
  destruct st as [path|]; [|reflexivity].
  destruct (Hst path eq_refl) as [lines ->]. reflexivity.
Qed.

Lemma startup_returns (self : SageBot.t) (m : machine) :
  writable (env m) ->
  let path := "./states/" +:+ default EmptyString (SageBot.state_name self) +:+ ".json" in
  (Py.truthy (SageBot.state_name self) = true -> is_Some (disk m !! path)) ->
  exists m0,
    SageBot.startup self m = (Ok tt, m0) /\ env m0 = env m
    /\ NewContext (S (fresh m)) (S (S (fresh m)))
         (if Py.truthy (SageBot.state_name self) then Some path else None)
       ∈ trace m0.
Proof.
  intros Hw path Hstate. unfold SageBot.startup. unfold bind at 1.
  rewrite (log_action_writable _ _ m Hw).
  unfold bind at 1, new_handle at 1. unfold bind at 1, do at 1, modify at 1.
  unfold bind at 1, new_handle at 1. unfold bind at 1, do at 1, modify at 1.
  unfold bind at 1.
  destruct (Py.truthy (SageBot.state_name self)).
  - unfold bind at 1. rewrite new_context_returns.
    + unfold bind at 1. rewrite log_action_writable by exact Hw.
      eexists. split; [reflexivity|]. split; [reflexivity|].
      simpl. rewrite !elem_of_app. left. right. apply list_elem_of_singleton. reflexivity.
    + intros p [= <-]. simpl. apply lookup_insert_is_Some'. right. now apply Hstate.
  - unfold bind at 1. rewrite new_context_returns by discriminate.
    unfold bind at 1. rewrite log_action_writable by exact Hw.
    eexists. split; [reflexivity|]. split; [reflexivity|].
    simpl. rewrite !elem_of_app. left. right. apply list_elem_of_singleton. reflexivity.
Qed.

Lemma teardown_returns (m : machine) :
  writable (env m) -> is_Some (browser (bot m)) -> is_Some (playwright (bot m)) ->
  fst (SageBot.teardown m) = Ok tt.
Proof.
  intros Hw [b Hb] [p Hp].
  unfold SageBot.teardown, SageBot.browser_close, SageBot.playwright_stop.
  unfold bind at 1. unfold bind at 1, get_machine at 1. rewrite Hb.
  unfold do at 1, modify at 1.
  unfold bind at 1. unfold bind at 1, get_machine at 1.
  change (playwright (bot (emit (BrowserClose b) m))) with (playwright (bot m)). rewrite Hp.
  unfold do at 1, modify at 1.
  now rewrite log_action_writable by exact Hw.
Qed.


Lemma quiet_click_element self : quiet (ClickElement.execute self).
Proof.
  unfold ClickElement.execute.
  apply quiet_bind; [apply framed_quiet, framed_current_page|]. intros p.
  apply quiet_bind; [apply framed_quiet, framed_new_handle|]. intros element.
  apply quiet_bind; [|intros _; apply framed_quiet, framed_trailing_wait].
  apply quiet_bind; [now intros m|]. intros _.
  apply framed_quiet. unfold BrowserStep.acting.
  apply framed_bind.
  - apply framed_bind; [apply framed_get_machine|]. intros m.
    destruct (dom (env m) _); auto with framed.
  - intros _. auto with framed.
Qed.


(** ** Clicks at the pointer and at a point *)

Lemma silent_ret P {A} (a : A) : silent P (ret a).
Proof. now intros m. Qed.

Lemma silent_raise P {A} e : silent P (@raise A e).
Proof. now intros m. Qed.

Lemma silent_get_machine P : silent P get_machine.
Proof. now intros m. Qed.

Lemma silent_do P e : P e = false -> silent P (do e).
Proof.
  intros He m. simpl. rewrite List.filter_app. simpl. rewrite He. now rewrite app_nil_r.
Qed.

Lemma silent_bind P {A B} (c : M A) (k : A -> M B) :
  silent P c -> (forall a, silent P (k a)) -> silent P (bind c k).
Proof.
  intros Hc Hk m. specialize (Hc m). unfold bind.
  destruct (c m) as [[a|e] m1]; simpl in *; [|exact Hc].
  now rewrite (Hk a m1).
Qed.

Lemma silent_try P {A} (c : M A) (h : exn -> M A) :
  silent P c -> (forall e, silent P (h e)) -> silent P (try_except c h).
Proof.
  intros Hc Hh m. specialize (Hc m). unfold try_except.
  destruct (c m) as [[a|e] m1]; simpl in *; [exact Hc|].
  now rewrite (Hh e m1).
Qed.

Lemma silent_log_action P a t :
  (forall line, P (Print line) = false) ->
  (forall path line, P (Write path line) = false) ->
  silent P (BotContext.log_action a t).
Proof.
  intros Hprint Hwrite m. destruct (append_fails (env m) (S (tick m))) as [e|] eqn:Hw.
  - rewrite (log_action_fail _ _ _ e Hw). simpl.
    rewrite List.filter_app. simpl. rewrite Hprint. now rewrite app_nil_r.
  - rewrite (log_action_ok _ _ _ Hw). simpl.
    rewrite List.filter_app. simpl. rewrite Hprint, Hwrite. now rewrite app_nil_r.
Qed.

Lemma silent_pointer P (e : event) :
  P e = false ->
  silent P (m <- get_machine ;;
            match pointer (env m) with Some err => raise err | None => do e end).
Proof.
  intros He. apply silent_bind; [apply silent_get_machine|].
  intros m. destruct (pointer (env m)); [apply silent_raise | now apply silent_do].
Qed.

Lemma silent_moveTo P x y d : P (MoveTo x y d) = false -> silent P (GUIStep.moveTo x y d).
Proof. apply silent_pointer. Qed.

Lemma silent_dragTo P x y d :
  P (DragToPoint x y d) = false -> silent P (GUIStep.dragTo x y d).
Proof. apply silent_pointer. Qed.

Lemma silent_click P b c i :
  P (ClickButton b c i) = false -> silent P (GUIStep.click b c i).
Proof. apply silent_pointer. Qed.

Lemma silent_lift P {A} (o : outcome A) : silent P (lift o).
Proof. now intros m. Qed.

Lemma silent_when P b (c : M unit) : (b = true -> silent P c) -> silent P (when b c).
Proof. destruct b; simpl; auto using silent_ret. Qed.

Lemma silent_str_float P x : silent P (str_float x).
Proof. now intros m. Qed.

Create HintDb silent.
#[export] Hint Resolve silent_ret silent_raise silent_get_machine silent_do silent_bind
  silent_try silent_log_action silent_moveTo silent_dragTo silent_click silent_lift
  silent_str_float
  : silent.
#[export] Hint Extern 1 (is_sleep _ = false) => reflexivity : silent.

Lemma positive_float_seconds (ms : Z) :
  GUIStep.positive_float (GUIStep.seconds ms) = (0 <? ms).
Proof.
  unfold GUIStep.positive_float, GUIStep.seconds. simpl. now rewrite Z.mul_1_r.
Qed.

Lemma actions_app (l1 l2 : list event) : actions (l1 ++ l2) = actions l1 ++ actions l2.
Proof. apply List.filter_app. Qed.

Lemma actions_after_log action tag m :
  actions (trace (after_log action tag m)) = actions (trace m).
Proof. simpl. rewrite actions_app. simpl. now rewrite app_nil_r. Qed.

Lemma actions_emit e m :
  actions (trace (emit e m)) = actions (trace m) ++ (if is_action e then [e] else []).
Proof. simpl. rewrite actions_app. simpl. now destruct (is_action e). Qed.





(** ** Browser steps and the current page *)

Lemma current_page_none attr m :
  page (bot m) = None ->
  BrowserStep.current_page attr m = (Raise (none_has_no attr), m).
Proof. intros Hp. unfold BrowserStep.current_page, bind, get_machine. now rewrite Hp. Qed.

Lemma bind_raise {A B} (c : M A) (k : A -> M B) e m m' :
  c m = (Raise e, m') -> bind c k m = (Raise e, m').
Proof. intros Hc. unfold bind. now rewrite Hc. Qed.



(** ** Storing the browser state and loading it *)

Lemma store_state_disk content name m m' :
  StoreState.execute content (StoreState.init name) m = (Ok tt, m') ->
  is_Some (disk m' !! ("./states/" +:+ name +:+ ".json"))
  /\ (BotContext.log_file (bot m) <> "./states/" +:+ name +:+ ".json" ->
      disk m' !! ("./states/" +:+ name +:+ ".json") = Some content).
Proof.
  unfold StoreState.execute, StoreState.storage_state. simpl StoreState.state_name.
  unfold bind at 1, do at 1, modify at 1.
  unfold bind at 1. unfold bind at 1, get_machine at 1.
  change (context (bot (emit (Makedirs "./states") m))) with (context (bot m)).
  destruct (context (bot m)) as [c|]; [|discriminate].
  unfold bind at 1, next_tick at 1.
  change (env (emit (Makedirs "./states") m)) with (env m).
  change (tick (emit (Makedirs "./states") m)) with (tick m).
  destruct (append_fails (env m) (tick m)) as [e|]; [discriminate|].
  unfold modify at 1.
  match goal with |- BotContext.log_action ?a ?t ?m1 = _ -> _ =>
    destruct (append_fails (env m1) (S (tick m1))) as [e|] eqn:Hw;
    [ rewrite (log_action_fail a t m1 e Hw); discriminate
    | rewrite (log_action_ok a t m1 Hw) ]
  end.
  intros [= <-]. simpl. split.
  - apply lookup_insert_is_Some'. right. rewrite lookup_insert_eq. eauto.
  - intros Hne. rewrite lookup_insert_ne by exact Hne. apply lookup_insert_eq.
Qed.



(** ** Opening a page *)

Lemma records_modify f :
  records f (modify (fun m => with_bot (f (bot m)) m)).
Proof. now intros m. Qed.

Lemma records_bind f {A B} (c : M A) (k : A -> M B) :
  framed c -> (forall a, records f (k a)) -> records f (bind c k).
Proof.
  intros Hc Hk m. destruct (Hc m) as (_ & Hb & _). unfold bind.
  destruct (c m) as [[a|e] m1]; simpl in *; [|exact Hb].
  rewrite (Hk a m1). now rewrite Hb.
Qed.


Lemma outside_offline : outside SamplePage.offline.
Proof.
  split; [|split; [|split]]; intros.
  - apply framed_new_handle.
  - apply framed_ret.
  - apply framed_ret.
  - apply framed_raise.
Qed.

Lemma outside_no_script : outside SamplePage.no_script.
Proof.
  split; [|split; [|split]]; intros.
  - apply framed_new_handle.
  - apply framed_ret.
  - apply framed_raise.
  - apply framed_ret.
Qed.




(** ** A run that names a state which was never stored *)



(** ** Run names *)

Lemma length_app_string (a b : string) :
  String.length (a +:+ b) = (String.length a + String.length b)%nat.
Proof. induction a as [|c a IH]; simpl; [reflexivity | now rewrite IH]. Qed.

Lemma length_digits n z : String.length (Py.digits n z) = n.
Proof.
  revert z. induction n as [|n IH]; intros z; [reflexivity|].
  simpl. rewrite length_app_string, IH. simpl. lia.
Qed.

Lemma app_string_inj (a a' b b' : string) :
  String.length a = String.length a' -> a +:+ b = a' +:+ b' -> a = a' /\ b = b'.
Proof.
  revert a'. induction a as [|c a IH]; intros [|c' a'] Hlen Heq;
    try discriminate; [now split|].
  simpl in Heq. injection Heq as -> Heq. injection Hlen as Hlen.
  destruct (IH a' Hlen Heq) as (-> & ->). now split.
Qed.

Lemma digit_inj a b : Py.digit a = Py.digit b -> a mod 10 = b mod 10.
Proof.
  unfold Py.digit. intros [= H].
  assert (Ha : 0 <= a mod 10 < 10) by (apply Z.mod_pos_bound; lia).
  assert (Hb : 0 <= b mod 10 < 10) by (apply Z.mod_pos_bound; lia).
  apply (f_equal nat_of_ascii) in H.
  rewrite !nat_ascii_embedding in H by lia. lia.
Qed.

Lemma digits_inj n a b :
  Py.digits n a = Py.digits n b -> a mod 10 ^ Z.of_nat n = b mod 10 ^ Z.of_nat n.
Proof.
  revert a b. induction n as [|n IH]; intros a b H.
  - simpl. now rewrite !Z.mod_1_r.
  - simpl in H. apply app_string_inj in H; [|now rewrite !length_digits].
    destruct H as (Hhigh & Hlow).
    apply IH in Hhigh. apply digit_inj in Hlow.
    rewrite Nat2Z.inj_succ, Z.pow_succ_r by lia.
    rewrite !(Z.rem_mul_r _ 10 (10 ^ Z.of_nat n)) by lia. congruence.
Qed.

Lemma digits_inj_small n a b :
  0 <= a < 10 ^ Z.of_nat n -> 0 <= b < 10 ^ Z.of_nat n ->
  Py.digits n a = Py.digits n b -> a = b.
Proof.
  intros Ha Hb H. apply digits_inj in H.
  now rewrite !Z.mod_small in H by assumption.
Qed.

Lemma length_strftime_compact d : String.length (strftime_compact d) = 14%nat.
Proof.
  unfold strftime_compact. now rewrite !length_app_string, !length_digits.
Qed.

Lemma strftime_compact_inj d1 d2 :
  fits_columns d1 -> fits_columns d2 ->
  strftime_compact d1 = strftime_compact d2 -> d1 = d2.
Proof.
  intros (Hy1 & Hm1 & Hd1 & Hh1 & Hmi1 & Hs1) (Hy2 & Hm2 & Hd2 & Hh2 & Hmi2 & Hs2).
  destruct d1 as [y1 mo1 da1 h1 mi1 s1], d2 as [y2 mo2 da2 h2 mi2 s2].
  unfold strftime_compact. cbn [year month day hour minute second] in *. intros H.
  apply app_string_inj in H; [|now rewrite !length_digits]. destruct H as (Hy & H).
  apply app_string_inj in H; [|now rewrite !length_digits]. destruct H as (Hmo & H).
  apply app_string_inj in H; [|now rewrite !length_digits]. destruct H as (Hda & H).
  apply app_string_inj in H; [|now rewrite !length_digits]. destruct H as (Hh & H).
  apply app_string_inj in H; [|now rewrite !length_digits]. destruct H as (Hmi & Hs).
  apply digits_inj_small in Hy, Hmo, Hda, Hh, Hmi, Hs;
    try (change (10 ^ Z.of_nat 4) with 10000; change (10 ^ Z.of_nat 2) with 100; lia).
  now subst.
Qed.

Lemma init_run_folder m :
  run_folder (bot (snd (BotContext.init m)))
  = "./runs/" +:+ strftime_compact (now (env m) (tick m))
  /\ run_name (bot (snd (BotContext.init m)))
     = strftime_compact (now (env m) (tick m)).
Proof. now split. Qed.



(** ** The name of a download *)

Lemma rfind_bounds c s : -1 <= PyStr.rfind c s < Z.of_nat (length s).
Proof.
  induction s as [|x s IH]; simpl; [lia|].
  destruct (Z.leb_spec 0 (PyStr.rfind c s)); [lia|].
  destruct (bool_decide (x = c)); lia.
Qed.

Lemma rfind_last c s (k : nat) :
  PyStr.rfind c s < Z.of_nat k -> s !! k <> Some c.
Proof.
  revert k. induction s as [|x s IH]; intros k Hk; [now destruct k|].
  simpl in Hk. destruct k as [|k].
  - simpl. pose proof (rfind_bounds c s).
    destruct (Z.leb_spec 0 (PyStr.rfind c s)); [lia|].
    destruct (bool_decide (x = c)) eqn:E; [lia|].
    apply bool_decide_eq_false in E. congruence.
  - simpl. apply IH. pose proof (rfind_bounds c s).
    destruct (Z.leb_spec 0 (PyStr.rfind c s)); [lia|].
    destruct (bool_decide (x = c)); lia.
Qed.

Lemma rfind_found c s :
  0 <= PyStr.rfind c s -> s !! Z.to_nat (PyStr.rfind c s) = Some c.
Proof.
  induction s as [|x s IH]; simpl; [lia|].
  destruct (Z.leb_spec 0 (PyStr.rfind c s)) as [Hi|Hi].
  - intros _. replace (Z.to_nat (PyStr.rfind c s + 1)) with (S (Z.to_nat (PyStr.rfind c s)))
      by lia. simpl. now apply IH.
  - destruct (bool_decide (x = c)) eqn:E; [|lia].
    apply bool_decide_eq_true in E. now subst.
Qed.

Lemma not_in_after c s (n : nat) :
  PyStr.rfind c s < Z.of_nat n -> c ∉ drop n s.
Proof.
  intros Hn Hin. apply list_elem_of_lookup in Hin. destruct Hin as (i & Hi).
  rewrite lookup_drop in Hi. revert Hi. apply rfind_last. lia.
Qed.

Lemma splitext_extension sep altsep p :
  plain_extension sep altsep (snd (PyStr.splitext sep altsep p)).
Proof.
  unfold PyStr.splitext.
  set (sepIndex := match altsep with
                   | Some alt => Z.max (PyStr.rfind sep p) (PyStr.rfind alt p)
                   | None => PyStr.rfind sep p
                   end).
  set (dotIndex := PyStr.rfind "." p).
  destruct (Z.ltb_spec sepIndex dotIndex) as [Hlt|]; [|now left].
  destruct (existsb _ _); [|now left]. simpl. right.
  assert (Hsep : PyStr.rfind sep p <= sepIndex)
    by (subst sepIndex; destruct altsep; lia).
  assert (Halt : forall alt, altsep = Some alt -> PyStr.rfind alt p <= sepIndex)
    by (intros alt ->; subst sepIndex; lia).
  pose proof (rfind_bounds sep p) as Hb.
  assert (Hdot : 0 <= dotIndex) by lia.
  pose proof (rfind_found "." p Hdot) as Hfound. fold dotIndex in Hfound.
  exists (drop (S (Z.to_nat dotIndex)) p). split; [|split; [|split]].
  - now apply drop_S.
  - apply not_in_after. fold dotIndex. lia.
  - apply not_in_after. lia.
  - intros alt Ha. apply not_in_after. specialize (Halt alt Ha). lia.
Qed.

Lemma split_parts c s :
  PyStr.split c s <> [] /\ Forall (fun part => c ∉ part) (PyStr.split c s).
Proof.
  induction s as [|x s (Hne & IH)]; simpl.
  - split; [discriminate|]. repeat constructor. apply not_elem_of_nil.
  - destruct (bool_decide (x = c)) eqn:E.
    + split; [discriminate|]. constructor; [apply not_elem_of_nil | exact IH].
    + apply bool_decide_eq_false in E.
      destruct (PyStr.split c s) as [|part parts]; [contradiction|].
      split; [discriminate|]. inversion IH as [|? ? Hpart Hparts]; subst.
      constructor; [|exact Hparts].
      intros Hin. apply elem_of_cons in Hin. destruct Hin as [->|Hin]; contradiction.
Qed.

Lemma url_path_no_slash url : "/"%char ∉ DownloadName.url_path url.
Proof.
  unfold DownloadName.url_path.
  destruct (split_parts "/" (list_ascii_of_string url)) as (_ & Hall).
  destruct (last _) as [part|] eqn:Hlast; [|apply not_elem_of_nil].
  apply last_Some_elem_of in Hlast. rewrite Forall_forall in Hall. now apply Hall.
Qed.

Lemma endswith_elem s c : PyStr.endswith s c = true -> c ∈ s.
Proof.
  unfold PyStr.endswith. destruct (last s) as [x|] eqn:Hlast; [|discriminate].
  intros E. apply bool_decide_eq_true in E. subst. now apply last_Some_elem_of.
Qed.

Lemma append_empty_r (s : string) : s +:+ EmptyString = s.
Proof.
  induction s as [|c s IH]; [reflexivity|].
  change (String c (s +:+ EmptyString) = String c s). now rewrite IH.
Qed.

Lemma stamped_at ext m :
  DownloadName.stamped ext m
  = (Ok (strftime_compact (now (env m) (tick m)) +:+ string_of_list_ascii ext),
     with_tick (S (tick m)) m).
Proof. reflexivity. Qed.


